(** * dinput virtual gamepad (dlls/dinput/gamepad.c): axis scaler, mapping
      engine, live-state read and discovery, embedded as Rocq functions.

    C integers are mathematical integers with the wrap-around of their
    width written out; the device and the process-wide globals are explicit
    records passed through every operation. *)

From Stdlib Require Import ZArith Lia Bool List.
From stdpp Require Import base list.
Import ListNotations.
Local Open Scope Z_scope.

(** ** Machine integers *)

Module CInt.

Definition INT_MIN : Z := -2147483648.
Definition INT_MAX : Z := 2147483647.

(** Value of a 32-bit signed object (LONG, INT, int) holding [z] modulo 2^32. *)
Definition to_LONG (z : Z) : Z := (z + 2147483648) mod 4294967296 - 2147483648.

(** Value of a 32-bit unsigned object (DWORD). *)
Definition to_DWORD (z : Z) : Z := z mod 4294967296.

(** Value of a 16-bit signed object (short). *)
Definition to_short (z : Z) : Z := (z + 32768) mod 65536 - 32768.

(** Value of an 8-bit signed object (char on this platform). *)
Definition to_char (z : Z) : Z := (z + 128) mod 256 - 128.

(** Value of an 8-bit unsigned object (unsigned char, BYTE). *)
Definition to_uchar (z : Z) : Z := z mod 256.

Definition is_LONG (z : Z) : Prop := INT_MIN <= z <= INT_MAX.

(** C inequality test [a != b]. *)
Definition neqb (a b : Z) : bool := negb (a =? b).

(** C truth value of an integer expression. *)
Definition nonzero (a : Z) : bool := negb (a =? 0).

End CInt.
Export CInt.

Infix "!=?" := neqb (at level 70, no associativity) : Z_scope.

(** Modelled from the spec: MulDiv, the platform's
    multiply-then-divide-with-rounding primitive, which gamepad.c calls and
    winbase.h declares; its body is not among the sources.  It returns a*b/c
    rounded to nearest with ties away from zero, computed in 64 bits, and -1
    when the divisor is 0 or the quotient does not fit a 32-bit signed
    integer. *)
Definition MulDiv (a b c : Z) : Z :=
  if c =? 0 then -1
  else
    let a' := if c <? 0 then to_LONG (- a) else a in
    let c' := if c <? 0 then to_LONG (- c) else c in
    let ret :=
      if ((a' <? 0) && (b <? 0)) || ((0 <=? a') && (0 <=? b))
      then Z.quot (a' * b + Z.quot c' 2) c'
      else Z.quot (a' * b - Z.quot c' 2) c' in
    if (INT_MAX <? ret) || (ret <? - INT_MAX) then -1 else ret.

(** C [round] applied to [s / 2.0] and stored in a LONG: halves go away
    from zero.  [s] is a 32-bit integer, so the double is exact. *)
Definition round_half (s : Z) : Z := Z.quot (s + Z.sgn s) 2.

(** ** Axis scaler *)

(** struct object_properties (device_private.h), the fields gamepad.c reads
    or writes. *)
Record object_properties := {
  logical_min : Z;
  logical_max : Z;
  range_min : Z;
  range_max : Z;
  deadzone : Z;
  saturation : Z;
  granularity : Z
}.

Definition scale_value (value : Z) (properties : object_properties) : Z :=
  let log_min := logical_min properties in
  let log_max := logical_max properties in
  let phy_min := range_min properties in
  let phy_max := range_max properties in
  to_LONG (phy_min
           + MulDiv (to_LONG (value - log_min)) (to_LONG (phy_max - phy_min))
                    (to_LONG (log_max - log_min))).

(** [phy_ctr] of scale_axis_value. *)
Definition phy_center (properties : object_properties) : Z :=
  let phy_min := range_min properties in
  let phy_max := range_max properties in
  if phy_min =? 0 then Z.shiftr phy_max 1
  else round_half (to_LONG (phy_min + phy_max)).

(** [log_ctr] of scale_axis_value. *)
Definition log_center (properties : object_properties) : Z :=
  let log_min := logical_min properties in
  let log_max := logical_max properties in
  if log_min =? 0 then Z.shiftr log_max 1
  else round_half (to_LONG (log_min + log_max)).

(** The four edges scale_axis_value computes, relative to the logical
    center: on the half [value <= 0] from logical_min, on the half
    [value > 0] from logical_max. *)
Definition deadzone_edge_neg (p : object_properties) : Z :=
  MulDiv (to_LONG (logical_min p - log_center p)) (deadzone p) 10000.
Definition saturation_edge_neg (p : object_properties) : Z :=
  MulDiv (to_LONG (logical_min p - log_center p)) (saturation p) 10000.
Definition deadzone_edge_pos (p : object_properties) : Z :=
  MulDiv (to_LONG (logical_max p - log_center p)) (deadzone p) 10000.
Definition saturation_edge_pos (p : object_properties) : Z :=
  MulDiv (to_LONG (logical_max p - log_center p)) (saturation p) 10000.

(** [value -= log_ctr]. *)
Definition shifted (value : Z) (p : object_properties) : Z :=
  to_LONG (value - log_center p).

Definition scale_axis_value (value : Z) (properties : object_properties) : Z :=
  let phy_ctr := phy_center properties in
  let value := shifted value properties in
  let '(log_min, log_max, phy_min, phy_max) :=
    if value <=? 0
    then (saturation_edge_neg properties, deadzone_edge_neg properties,
          range_min properties, phy_ctr)
    else (deadzone_edge_pos properties, saturation_edge_pos properties,
          phy_ctr, range_max properties) in
  if value <=? log_min then phy_min
  else if log_max <=? value then phy_max
  else to_LONG (phy_min
                + MulDiv (to_LONG (value - log_min)) (to_LONG (phy_max - phy_min))
                         (to_LONG (log_max - log_min))).

(** The calibration init_object_properties installs for every axis (the
    deadzone is left at the zero of calloc). *)
Definition init_object_properties : object_properties :=
  {| logical_min := -32768; logical_max := 32767;
     range_min := 0; range_max := 65535;
     deadzone := 0; saturation := 10000; granularity := 1 |}.


(** ** Mapping engine *)

Definition FLAG_DINPUT_MAPPER_STANDARD : Z := 0x01.
Definition FLAG_DINPUT_MAPPER_XINPUT : Z := 0x02.
Definition FLAG_INPUT_TYPE_XINPUT : Z := 0x04.
Definition FLAG_INPUT_TYPE_DINPUT : Z := 0x08.

Definition IDX_BUTTON_A : Z := 0.
Definition IDX_BUTTON_B : Z := 1.
Definition IDX_BUTTON_X : Z := 2.
Definition IDX_BUTTON_Y : Z := 3.
Definition IDX_BUTTON_L1 : Z := 4.
Definition IDX_BUTTON_R1 : Z := 5.
Definition IDX_BUTTON_L2 : Z := 10.
Definition IDX_BUTTON_R2 : Z := 11.
Definition IDX_BUTTON_SELECT : Z := 6.
Definition IDX_BUTTON_START : Z := 7.
Definition IDX_BUTTON_L3 : Z := 8.
Definition IDX_BUTTON_R3 : Z := 9.

(** Object type bits and the instance macro of dinput.h. *)
Definition DIDFT_ABSAXIS : Z := 0x02.
Definition DIDFT_BUTTON : Z := 0x0C.
Definition DIDFT_POV : Z := 0x10.
Definition DIDFT_MAKEINSTANCE (n : Z) : Z := Z.shiftl (n mod 65536) 8.

(** struct gamepad_state: the last raw sample the engine has seen. *)
Record gamepad_state := {
  buttons : Z;
  dpad : Z;
  thumb_lx : Z;
  thumb_ly : Z;
  thumb_rx : Z;
  thumb_ry : Z;
  thumb_lz : Z;
  thumb_rz : Z
}.

(** DIJOYSTATE, the calibrated snapshot behind [impl->base.device_state]
    (the two sliders, which gamepad.c never touches, are left out).
    rgdwPOV has 4 DWORD entries and rgbButtons 32 BYTE entries. *)
Record DIJOYSTATE := {
  lX : Z;
  lY : Z;
  lZ : Z;
  lRx : Z;
  lRy : Z;
  lRz : Z;
  rgdwPOV : list Z;
  rgbButtons : list Z
}.

(** What one queue_event call hands to the event sink. *)
Record event := {
  ev_index : Z;
  ev_data : Z;
  ev_time : Z;
  ev_seq : Z
}.

(** struct gamepad with the parts of its [base] that gamepad.c uses.
    [object_index] stands for dinput_device_object_index_from_id on this
    device and [object_properties_at i] for [base.object_properties + i];
    both belong to the device framework and are taken as given.
    [evsequence] is [base.dinput->evsequence]. *)
Record gamepad := {
  object_index : Z -> Z;
  object_properties_at : Z -> object_properties;
  device_state : DIJOYSTATE;
  evsequence : Z;
  hEvent : bool;
  hEvent_set : bool;
  state : gamepad_state
}.

(** The process-wide variables of gamepad.c; [server_sock] is true when the
    socket is not INVALID_SOCKET. *)
Record globals := {
  server_sock : bool;
  winsock_loaded : bool;
  connected_gamepad_id : Z;
  input_type : Z
}.

(** Field assignments [impl->state.f = v]. *)
Definition set_buttons (v : Z) (s : gamepad_state) : gamepad_state :=
  {| buttons := v; dpad := dpad s; thumb_lx := thumb_lx s; thumb_ly := thumb_ly s;
     thumb_rx := thumb_rx s; thumb_ry := thumb_ry s; thumb_lz := thumb_lz s; thumb_rz := thumb_rz s |}.
Definition set_dpad (v : Z) (s : gamepad_state) : gamepad_state :=
  {| buttons := buttons s; dpad := v; thumb_lx := thumb_lx s; thumb_ly := thumb_ly s;
     thumb_rx := thumb_rx s; thumb_ry := thumb_ry s; thumb_lz := thumb_lz s; thumb_rz := thumb_rz s |}.
Definition set_thumb_lx (v : Z) (s : gamepad_state) : gamepad_state :=
  {| buttons := buttons s; dpad := dpad s; thumb_lx := v; thumb_ly := thumb_ly s;
     thumb_rx := thumb_rx s; thumb_ry := thumb_ry s; thumb_lz := thumb_lz s; thumb_rz := thumb_rz s |}.
Definition set_thumb_ly (v : Z) (s : gamepad_state) : gamepad_state :=
  {| buttons := buttons s; dpad := dpad s; thumb_lx := thumb_lx s; thumb_ly := v;
     thumb_rx := thumb_rx s; thumb_ry := thumb_ry s; thumb_lz := thumb_lz s; thumb_rz := thumb_rz s |}.
Definition set_thumb_rx (v : Z) (s : gamepad_state) : gamepad_state :=
  {| buttons := buttons s; dpad := dpad s; thumb_lx := thumb_lx s; thumb_ly := thumb_ly s;
     thumb_rx := v; thumb_ry := thumb_ry s; thumb_lz := thumb_lz s; thumb_rz := thumb_rz s |}.
Definition set_thumb_ry (v : Z) (s : gamepad_state) : gamepad_state :=
  {| buttons := buttons s; dpad := dpad s; thumb_lx := thumb_lx s; thumb_ly := thumb_ly s;
     thumb_rx := thumb_rx s; thumb_ry := v; thumb_lz := thumb_lz s; thumb_rz := thumb_rz s |}.
Definition set_thumb_lz (v : Z) (s : gamepad_state) : gamepad_state :=
  {| buttons := buttons s; dpad := dpad s; thumb_lx := thumb_lx s; thumb_ly := thumb_ly s;
     thumb_rx := thumb_rx s; thumb_ry := thumb_ry s; thumb_lz := v; thumb_rz := thumb_rz s |}.
Definition set_thumb_rz (v : Z) (s : gamepad_state) : gamepad_state :=
  {| buttons := buttons s; dpad := dpad s; thumb_lx := thumb_lx s; thumb_ly := thumb_ly s;
     thumb_rx := thumb_rx s; thumb_ry := thumb_ry s; thumb_lz := thumb_lz s; thumb_rz := v |}.

(** Field assignments [state->f = v] on the calibrated snapshot. *)
Definition set_lX (v : Z) (s : DIJOYSTATE) : DIJOYSTATE :=
  {| lX := v; lY := lY s; lZ := lZ s; lRx := lRx s; lRy := lRy s; lRz := lRz s;
     rgdwPOV := rgdwPOV s; rgbButtons := rgbButtons s |}.
Definition set_lY (v : Z) (s : DIJOYSTATE) : DIJOYSTATE :=
  {| lX := lX s; lY := v; lZ := lZ s; lRx := lRx s; lRy := lRy s; lRz := lRz s;
     rgdwPOV := rgdwPOV s; rgbButtons := rgbButtons s |}.
Definition set_lZ (v : Z) (s : DIJOYSTATE) : DIJOYSTATE :=
  {| lX := lX s; lY := lY s; lZ := v; lRx := lRx s; lRy := lRy s; lRz := lRz s;
     rgdwPOV := rgdwPOV s; rgbButtons := rgbButtons s |}.
Definition set_lRx (v : Z) (s : DIJOYSTATE) : DIJOYSTATE :=
  {| lX := lX s; lY := lY s; lZ := lZ s; lRx := v; lRy := lRy s; lRz := lRz s;
     rgdwPOV := rgdwPOV s; rgbButtons := rgbButtons s |}.
Definition set_lRy (v : Z) (s : DIJOYSTATE) : DIJOYSTATE :=
  {| lX := lX s; lY := lY s; lZ := lZ s; lRx := lRx s; lRy := v; lRz := lRz s;
     rgdwPOV := rgdwPOV s; rgbButtons := rgbButtons s |}.
Definition set_lRz (v : Z) (s : DIJOYSTATE) : DIJOYSTATE :=
  {| lX := lX s; lY := lY s; lZ := lZ s; lRx := lRx s; lRy := lRy s; lRz := v;
     rgdwPOV := rgdwPOV s; rgbButtons := rgbButtons s |}.

(** [state->rgdwPOV[i] = v] and [state->rgbButtons[j] = v].  The indices the
    engine uses (0, and 0..11) lie inside the arrays; on a shorter list the
    update leaves the list as it is. *)
Definition set_rgdwPOV (i : Z) (v : Z) (s : DIJOYSTATE) : DIJOYSTATE :=
  {| lX := lX s; lY := lY s; lZ := lZ s; lRx := lRx s; lRy := lRy s; lRz := lRz s;
     rgdwPOV := <[Z.to_nat i := v]> (rgdwPOV s); rgbButtons := rgbButtons s |}.
Definition set_rgbButtons (j : Z) (v : Z) (s : DIJOYSTATE) : DIJOYSTATE :=
  {| lX := lX s; lY := lY s; lZ := lZ s; lRx := lRx s; lRy := lRy s; lRz := lRz s;
     rgdwPOV := rgdwPOV s; rgbButtons := <[Z.to_nat j := v]> (rgbButtons s) |}.

(** The state one gamepad_handle_input call works on: the stored sample
    [impl->state], the snapshot behind the local pointer [state], the
    [notify] flag, and the events handed to queue_event so far, oldest
    first. *)
Record frame := {
  sample : gamepad_state;
  joystate : DIJOYSTATE;
  notify : bool;
  queued : list event
}.

Definition on_sample (f : gamepad_state -> gamepad_state) (c : frame) : frame :=
  {| sample := f (sample c); joystate := joystate c;
     notify := notify c; queued := queued c |}.
Definition on_joystate (f : DIJOYSTATE -> DIJOYSTATE) (c : frame) : frame :=
  {| sample := sample c; joystate := f (joystate c);
     notify := notify c; queued := queued c |}.
Definition set_notify (c : frame) : frame :=
  {| sample := sample c; joystate := joystate c;
     notify := true; queued := queued c |}.
Definition queue_event (index data time seq : Z) (c : frame) : frame :=
  {| sample := sample c; joystate := joystate c; notify := notify c;
     queued := queued c ++ [ {| ev_index := index; ev_data := data;
                                ev_time := time; ev_seq := seq |} ] |}.

(** [if (test) { body; notify = TRUE; }]. *)
Definition changed (test : frame -> bool) (body : frame -> frame) (c : frame) : frame :=
  if test c then set_notify (body c) else c.

(** One [if (thumb_a != impl->state.thumb_a) { ... }] block of an axis:
    store the raw value, scale it with the properties of object
    [DIDFT_ABSAXIS | DIDFT_MAKEINSTANCE (instance)], write the snapshot field
    and queue it. *)
Definition axis_block (dev : gamepad) (raw : Z) (stored_raw : gamepad_state -> Z)
    (store : Z -> gamepad_state -> gamepad_state) (instance : Z)
    (set_axis : Z -> DIJOYSTATE -> DIJOYSTATE) (time seq : Z) : frame -> frame :=
  changed (fun c => raw !=? stored_raw (sample c))
    (fun c =>
       let c := on_sample (store raw) c in
       let index := object_index dev (Z.lor DIDFT_ABSAXIS (DIDFT_MAKEINSTANCE instance)) in
       let v := scale_axis_value raw (object_properties_at dev index) in
       let c := on_joystate (set_axis v) c in
       queue_event index v time seq c).

(** The [switch (i)] of the standard variant: the slot [j] for bit [i]; [j]
    keeps its value when no case matches. *)
Definition button_slot (i j : Z) : Z :=
  if i =? IDX_BUTTON_A then 1
  else if i =? IDX_BUTTON_B then 2
  else if i =? IDX_BUTTON_X then 0
  else if i =? IDX_BUTTON_Y then 3
  else if i =? IDX_BUTTON_L1 then 4
  else if i =? IDX_BUTTON_R1 then 5
  else if i =? IDX_BUTTON_L2 then 6
  else if i =? IDX_BUTTON_R2 then 7
  else if i =? IDX_BUTTON_SELECT then 8
  else if i =? IDX_BUTTON_START then 9
  else if i =? IDX_BUTTON_L3 then 10
  else if i =? IDX_BUTTON_R3 then 11
  else j.

(** [(buttons & (1<<i)) ? 0x80 : 0x00]. *)
Definition button_value (buttons i : Z) : Z :=
  if nonzero (Z.land buttons (Z.shiftl 1 i)) then 0x80 else 0x00.

(** Body of the button loops: slot [j] takes the state of bit [i]. *)
Definition button_step (dev : gamepad) (buttons i j time seq : Z) (c : frame) : frame :=
  let v := button_value buttons i in
  let c := on_joystate (set_rgbButtons j v) c in
  let index := object_index dev (Z.lor DIDFT_BUTTON (DIDFT_MAKEINSTANCE j)) in
  queue_event index v time seq c.

(** [for (i = 0, j = 0; i < 12; i++) { switch (i) ...; ... }]. *)
Definition standard_button_loop (dev : gamepad) (buttons time seq : Z) (c : frame) : frame :=
  fst (fold_left
         (fun (cj : frame * Z) (i : Z) =>
            let j := button_slot i (snd cj) in
            (button_step dev buttons i j time seq (fst cj), j))
         (seqZ 0 12) (c, 0)).

(** [for (i = 0; i < 10; i++) { ... }]. *)
Definition xinput_button_loop (dev : gamepad) (buttons time seq : Z) (c : frame) : frame :=
  fold_left (fun (c : frame) (i : Z) => button_step dev buttons i i time seq c)
            (seqZ 0 10) c.

Definition buttons_block (loop : Z -> Z -> Z -> frame -> frame)
    (new_buttons time seq : Z) : frame -> frame :=
  changed (fun c => new_buttons !=? buttons (sample c))
    (fun c =>
       let c := on_sample (set_buttons new_buttons) c in
       loop new_buttons time seq c).

(** [dpad != -1 ? dpad * 4500 : -1] stored in the DWORD rgdwPOV[0]. *)
Definition pov_value (d : Z) : Z :=
  to_DWORD (if d !=? -1 then d * 4500 else -1).

Definition pov_block (dev : gamepad) (new_dpad time seq : Z) : frame -> frame :=
  changed (fun c => new_dpad !=? dpad (sample c))
    (fun c =>
       let c := on_sample (set_dpad new_dpad) c in
       let index := object_index dev (Z.lor DIDFT_POV (DIDFT_MAKEINSTANCE 0)) in
       let v := pov_value new_dpad in
       let c := on_joystate (set_rgdwPOV 0 v) c in
       queue_event index v time seq c).

(** The trigger block of the Xbox-style variant. *)
Definition trigger_block (dev : gamepad) (new_lz new_rz time seq : Z) : frame -> frame :=
  changed (fun c => (new_lz !=? thumb_lz (sample c)) || (new_rz !=? thumb_rz (sample c)))
    (fun c =>
       let index := object_index dev (Z.lor DIDFT_ABSAXIS (DIDFT_MAKEINSTANCE 2)) in
       let value :=
         if new_lz !=? thumb_lz (sample c) then MulDiv new_lz (-32768) 255
         else MulDiv new_rz 32767 255 in
       let v := scale_axis_value value (object_properties_at dev index) in
       let c := on_joystate (set_lZ v) c in
       let c := queue_event index v time seq c in
       let c := on_sample (set_thumb_lz new_lz) c in
       on_sample (set_thumb_rz new_rz) c).

Definition handle_standard (dev : gamepad) (new : gamepad_state) (time seq : Z)
    (c : frame) : frame :=
  let c := axis_block dev (thumb_lx new) thumb_lx set_thumb_lx 0 set_lX time seq c in
  let c := axis_block dev (thumb_ly new) thumb_ly set_thumb_ly 1 set_lY time seq c in
  let c := axis_block dev (thumb_rx new) thumb_rx set_thumb_rx 2 set_lZ time seq c in
  let c := axis_block dev (thumb_ry new) thumb_ry set_thumb_ry 3 set_lRz time seq c in
  let c := buttons_block (standard_button_loop dev) (buttons new) time seq c in
  pov_block dev (dpad new) time seq c.

Definition handle_xinput (dev : gamepad) (new : gamepad_state) (time seq : Z)
    (c : frame) : frame :=
  let c := axis_block dev (thumb_lx new) thumb_lx set_thumb_lx 0 set_lX time seq c in
  let c := axis_block dev (thumb_ly new) thumb_ly set_thumb_ly 1 set_lY time seq c in
  let c := axis_block dev (thumb_rx new) thumb_rx set_thumb_rx 3 set_lRx time seq c in
  let c := axis_block dev (thumb_ry new) thumb_ry set_thumb_ry 4 set_lRy time seq c in
  let c := trigger_block dev (thumb_lz new) (thumb_rz new) time seq c in
  let c := buttons_block (xinput_button_loop dev) (buttons new) time seq c in
  pov_block dev (dpad new) time seq c.

(** The two mapper tests on [input_type]. *)
Definition mapper_standard (g : globals) : bool :=
  nonzero (Z.land (input_type g) FLAG_DINPUT_MAPPER_STANDARD).
Definition mapper_xinput (g : globals) : bool :=
  nonzero (Z.land (input_type g) FLAG_DINPUT_MAPPER_XINPUT).

(** The frame a call has worked out, for the device and the clock it was
    given: [seq = evsequence++], then the blocks of the active variant. *)
Definition run_input (g : globals) (dev : gamepad) (new : gamepad_state) (time : Z) : frame :=
  let seq := evsequence dev in
  let c := {| sample := state dev; joystate := device_state dev;
              notify := false; queued := [] |} in
  if mapper_standard g then handle_standard dev new time seq c
  else if mapper_xinput g then handle_xinput dev new time seq c
  else c.

(** gamepad_handle_input: [new] is the sample passed in the eight
    arguments, [time] what GetCurrentTime returns.  The result is the device
    after the call and the events queued by it, in order; the event handle is
    set when notify was raised and the handle is not NULL. *)
Definition gamepad_handle_input (g : globals) (dev : gamepad) (new : gamepad_state)
    (time : Z) : gamepad * list event :=
  let c := run_input g dev new time in
  ({| object_index := object_index dev;
      object_properties_at := object_properties_at dev;
      device_state := joystate c;
      evsequence := to_DWORD (evsequence dev + 1);
      hEvent := hEvent dev;
      hEvent_set := if notify c && hEvent dev then true else hEvent_set dev;
      state := sample c |},
   queued c).

(** ** Wire protocol and the socket *)

Definition BUFFER_SIZE : nat := 64.
Definition REQUEST_CODE_GET_GAMEPAD : Z := 8.
Definition REQUEST_CODE_GET_GAMEPAD_STATE : Z := 9.
Definition REQUEST_CODE_RELEASE_GAMEPAD : Z := 10.

(** A [char buffer[BUFFER_SIZE]] is a list of octets 0..255.  The reads
    below are the casts of the C code on a little-endian machine. *)
Definition octet (buffer : list Z) (i : nat) : Z := to_uchar (default 0 (buffer !! i)).

(** [buffer[i]] read as char. *)
Definition char_at (buffer : list Z) (i : nat) : Z := to_char (octet buffer i).

(** [*(unsigned char * )(buffer + i)]. *)
Definition uchar_at (buffer : list Z) (i : nat) : Z := octet buffer i.

(** [*(short * )(buffer + i)]. *)
Definition short_at (buffer : list Z) (i : nat) : Z :=
  to_short (octet buffer i + 256 * octet buffer (i + 1)).

(** [*(int * )(buffer + i)]. *)
Definition int_at (buffer : list Z) (i : nat) : Z :=
  to_LONG (octet buffer i + 256 * octet buffer (i + 1)
           + 65536 * octet buffer (i + 2) + 16777216 * octet buffer (i + 3)).

(** What the socket has for one recvfrom call: a failure (timeout or any
    other socket error) or one datagram. *)
Inductive incoming :=
| socket_error
| datagram (data : list Z).

(** recvfrom (server_sock, buffer, BUFFER_SIZE, 0, NULL, 0): on success the
    received length and the buffer with its first octets overwritten, the
    rest of the buffer as it was; None stands for SOCKET_ERROR, which is also
    what a datagram longer than the buffer gives. *)
Definition recvfrom (inc : incoming) (buffer : list Z) : option (Z * list Z) :=
  match inc with
  | socket_error => None
  | datagram data =>
      if (length data <=? BUFFER_SIZE)%nat
      then Some (Z.of_nat (length data), data ++ drop (length data) buffer)
      else None
  end.

Inductive HRESULT :=
| DI_OK
| DIERR_INPUTLOST.

(** gamepad_read.  [buffer] is the content the local array happens to have
    on entry, [inc] what the socket delivers, [time] the clock read by
    gamepad_handle_input. *)
Definition gamepad_read (g : globals) (inc : incoming) (buffer : list Z) (time : Z)
    (dev : gamepad) : HRESULT * gamepad * list event :=
  if negb (server_sock g) then (DI_OK, dev, [])
  else
    match recvfrom inc buffer with
    | None => (DI_OK, dev, [])
    | Some (res, buffer) =>
        if (char_at buffer 0 =? REQUEST_CODE_GET_GAMEPAD_STATE) && (char_at buffer 1 =? 1)
        then
          let gamepad_id := int_at buffer 2 in
          if gamepad_id !=? connected_gamepad_id g then (DI_OK, dev, [])
          else
            let new :=
              {| buttons := short_at buffer 6;
                 dpad := char_at buffer 8;
                 thumb_lx := short_at buffer 9;
                 thumb_ly := short_at buffer 11;
                 thumb_rx := short_at buffer 13;
                 thumb_ry := short_at buffer 15;
                 thumb_lz := uchar_at buffer 17;
                 thumb_rz := uchar_at buffer 18 |} in
            let '(dev, evs) := gamepad_handle_input g dev new time in
            (DI_OK, dev, evs)
        else (DI_OK, dev, [])
    end.

(** ** Discovery *)

(** What the socket layer answers during one discovery attempt. *)
Record network := {
  WSAStartup_ok : bool;
  socket_ok : bool;
  setsockopt_reuseaddr_ok : bool;
  setsockopt_rcvtimeo_ok : bool;
  bind_ok : bool;
  sendto_ok : bool;
  response : incoming
}.

Definition set_server_sock (v : bool) (g : globals) : globals :=
  {| server_sock := v; winsock_loaded := winsock_loaded g;
     connected_gamepad_id := connected_gamepad_id g; input_type := input_type g |}.
Definition set_winsock_loaded (v : bool) (g : globals) : globals :=
  {| server_sock := server_sock g; winsock_loaded := v;
     connected_gamepad_id := connected_gamepad_id g; input_type := input_type g |}.
Definition set_connected_gamepad_id (v : Z) (g : globals) : globals :=
  {| server_sock := server_sock g; winsock_loaded := winsock_loaded g;
     connected_gamepad_id := v; input_type := input_type g |}.
Definition set_input_type (v : Z) (g : globals) : globals :=
  {| server_sock := server_sock g; winsock_loaded := winsock_loaded g;
     connected_gamepad_id := connected_gamepad_id g; input_type := v |}.

Definition close_server_socket (g : globals) : globals :=
  let g := if server_sock g then set_server_sock false g else g in
  if winsock_loaded g then set_winsock_loaded false g else g.

Definition create_server_socket (net : network) (g : globals) : bool * globals :=
  let g := close_server_socket g in
  let g := set_winsock_loaded (WSAStartup_ok net) g in
  if negb (winsock_loaded g) then (false, g)
  else
    let g := set_server_sock (socket_ok net) g in
    if negb (server_sock g) then (false, g)
    else if negb (setsockopt_reuseaddr_ok net) then (false, g)
    else if negb (setsockopt_rcvtimeo_ok net) then (false, g)
    else if negb (bind_ok net) then (false, g)
    else (true, g).

(** What get_gamepad_request does to [gamepad_name]: nothing; or
    [memcpy (gamepad_name, buffer + 10, name_len)] and the terminator at
    [gamepad_name[name_len]], which stay inside both arrays ([stored], with
    the octets copied) or do not ([overrun], with the count given to memcpy). *)
Inductive name_result :=
| untouched
| stored (name : list Z)
| overrun (name_len : Z).

(** Octets written to [gamepad_name], terminator included. *)
Definition name_octets_written (r : name_result) : Z :=
  match r with
  | untouched => 0
  | stored name => Z.of_nat (length name) + 1
  | overrun name_len => name_len + 1
  end.

Definition copy_name (capacity : nat) (buffer : list Z) : name_result :=
  let name_len := int_at buffer 6 in
  if (0 <=? name_len) && (10 + name_len <=? Z.of_nat BUFFER_SIZE)
     && (name_len + 1 <=? Z.of_nat capacity)
  then stored (take (Z.to_nat name_len) (drop 10 buffer))
  else overrun name_len.

(** The request get_gamepad_request writes into [buffer] before sending it:
    [buffer[0] = REQUEST_CODE_GET_GAMEPAD; buffer[1] = 0; buffer[2] = notify ? 1 : 0]. *)
Definition GET_GAMEPAD_request (notify : bool) (buffer : list Z) : list Z :=
  <[2%nat := if notify then 1 else 0]>
    (<[1%nat := 0]> (<[0%nat := REQUEST_CODE_GET_GAMEPAD]> buffer)).

(** get_gamepad_request.  [gamepad_name] is None for a NULL pointer and the
    size of the destination array otherwise; [buffer] is the content of the
    local array on entry. *)
Definition get_gamepad_request (notify : bool) (gamepad_name : option nat)
    (net : network) (buffer : list Z) (g : globals) : bool * globals * name_result :=
  let buffer := GET_GAMEPAD_request notify buffer in
  if negb (sendto_ok net) then (false, g, untouched)
  else
    match recvfrom (response net) buffer with
    | None => (false, g, untouched)
    | Some (res, buffer) =>
        if char_at buffer 0 !=? REQUEST_CODE_GET_GAMEPAD then (false, g, untouched)
        else
          let gamepad_id := int_at buffer 1 in
          if gamepad_id =? 0 then (false, set_connected_gamepad_id 0 g, untouched)
          else
            let g := set_connected_gamepad_id gamepad_id g in
            let g := set_input_type (char_at buffer 5) g in
            if negb (nonzero (Z.land (input_type g) FLAG_INPUT_TYPE_DINPUT))
            then (false, g, untouched)
            else
              match gamepad_name with
              | Some capacity => (true, g, copy_name capacity buffer)
              | None => (true, g, untouched)
              end
    end.

(** gamepad_enum_device: the outcome, the globals afterwards and what
    happened to the local [char gamepad_name[64]], from which both names of
    the instance are converted.  The other fields of the instance are
    constants. *)
Definition gamepad_enum_device (net : network) (buffer : list Z) (g : globals)
    : HRESULT * globals * name_result :=
  let '(created, g) := create_server_socket net g in
  if negb created then (DIERR_INPUTLOST, g, untouched)
  else
    let '(found, g, name) := get_gamepad_request false (Some 64%nat) net buffer g in
    if negb found then (DIERR_INPUTLOST, g, untouched)
    else (DI_OK, g, name).

(** ** Sample calibrations *)

(** The default logical and physical ranges with a 10% deadzone and a 90%
    saturation. *)
Definition calibrated_axis : object_properties :=
  {| logical_min := -32768; logical_max := 32767;
     range_min := 0; range_max := 65535;
     deadzone := 1000; saturation := 9000; granularity := 1 |}.

(** An 8-bit axis whose saturation (0.3%) rounds to an edge at the center. *)
Definition narrow_saturation_axis : object_properties :=
  {| logical_min := 0; logical_max := 255;
     range_min := 0; range_max := 65535;
     deadzone := 0; saturation := 30; granularity := 1 |}.

(** A 0..100 axis whose deadzone (99.99%) rounds to the saturation edge. *)
Definition wide_deadzone_axis : object_properties :=
  {| logical_min := 0; logical_max := 100;
     range_min := 0; range_max := 100;
     deadzone := 9999; saturation := 10000; granularity := 1 |}.

(** A two-valued axis spread over the whole non-negative LONG range. *)
Definition full_range_axis : object_properties :=
  {| logical_min := 0; logical_max := 1;
     range_min := 0; range_max := 2147483647;
     deadzone := 0; saturation := 10000; granularity := 1 |}.

(** ** Sample devices and samples *)

(** The object types get_device_objects lists for the active variant, in
    its order (the dwType of each descriptor). *)
Definition get_device_objects (input_type : Z) : list Z :=
  if nonzero (Z.land input_type FLAG_DINPUT_MAPPER_STANDARD) then
    ((fun i => Z.lor DIDFT_ABSAXIS (DIDFT_MAKEINSTANCE i)) <$> seqZ 0 4)
    ++ ((fun i => Z.lor DIDFT_BUTTON (DIDFT_MAKEINSTANCE i)) <$> seqZ 0 12)
    ++ [Z.lor DIDFT_POV (DIDFT_MAKEINSTANCE 0)]
  else if nonzero (Z.land input_type FLAG_DINPUT_MAPPER_XINPUT) then
    ((fun i => Z.lor DIDFT_ABSAXIS (DIDFT_MAKEINSTANCE i)) <$> seqZ 0 5)
    ++ ((fun i => Z.lor DIDFT_BUTTON (DIDFT_MAKEINSTANCE i)) <$> seqZ 0 10)
    ++ [Z.lor DIDFT_POV (DIDFT_MAKEINSTANCE 0)]
  else [].

(** Modelled from the spec: the property table's index_of (object_id), the
    position of the object in the enumerated list, -1 when it is not there
    (dinput_device_object_index_from_id, of the device framework, is not
    among the sources).  Only the sample devices below use it. *)
Fixpoint index_of (objects : list Z) (id : Z) : Z :=
  match objects with
  | [] => -1
  | o :: rest =>
      if o =? id then 0
      else let k := index_of rest id in if k <? 0 then -1 else k + 1
  end.

Definition rest_state : gamepad_state :=
  {| buttons := 0; dpad := -1; thumb_lx := 0; thumb_ly := 0;
     thumb_rx := 0; thumb_ry := 0; thumb_lz := 0; thumb_rz := 0 |}.

Definition zero_joystate : DIJOYSTATE :=
  {| lX := 0; lY := 0; lZ := 0; lRx := 0; lRy := 0; lRz := 0;
     rgdwPOV := replicate 4 0; rgbButtons := replicate 32 0 |}.

(** A freshly created device for the variant of [input_type], every axis
    with the calibration of init_object_properties, whose stored sample is
    the controller at rest. *)
Definition fresh_device (input_type : Z) : gamepad :=
  {| object_index := index_of (get_device_objects input_type);
     object_properties_at := fun _ => init_object_properties;
     device_state := zero_joystate;
     evsequence := 1;
     hEvent := true;
     hEvent_set := false;
     state := rest_state |}.

Definition standard_globals : globals :=
  {| server_sock := true; winsock_loaded := true; connected_gamepad_id := 1;
     input_type := Z.lor FLAG_DINPUT_MAPPER_STANDARD FLAG_INPUT_TYPE_DINPUT |}.

Definition xinput_globals : globals :=
  {| server_sock := true; winsock_loaded := true; connected_gamepad_id := 1;
     input_type := Z.lor FLAG_DINPUT_MAPPER_XINPUT FLAG_INPUT_TYPE_DINPUT |}.

(** The fields of a raw sample. *)
Inductive field :=
| F_buttons | F_dpad | F_lx | F_ly | F_rx | F_ry | F_lz | F_rz.

Definition get (f : field) (s : gamepad_state) : Z :=
  match f with
  | F_buttons => buttons s
  | F_dpad => dpad s
  | F_lx => thumb_lx s
  | F_ly => thumb_ly s
  | F_rx => thumb_rx s
  | F_ry => thumb_ry s
  | F_lz => thumb_lz s
  | F_rz => thumb_rz s
  end.

(** [new] differs from [old] in the field [f] and in no other. *)
Definition differs_exactly_in (f : field) (old new : gamepad_state) : Prop :=
  get f old <> get f new /\ forall f', f' <> f -> get f' old = get f' new.

(** Events one call queues for a sample that differs from the stored one in
    exactly the field [f]. *)
Definition events_for (input_type : Z) (f : field) : nat :=
  if nonzero (Z.land input_type FLAG_DINPUT_MAPPER_STANDARD) then
    match f with
    | F_buttons => 12
    | F_lz | F_rz => 0
    | _ => 1
    end
  else if nonzero (Z.land input_type FLAG_DINPUT_MAPPER_XINPUT) then
    match f with
    | F_buttons => 10
    | _ => 1
    end
  else 0.

(** ** The events of the blocks *)

(** The event an axis block queues for the raw value [raw] of axis object
    [instance]. *)
Definition axis_event (dev : gamepad) (raw instance time seq : Z) : event :=
  let index := object_index dev (Z.lor DIDFT_ABSAXIS (DIDFT_MAKEINSTANCE instance)) in
  {| ev_index := index;
     ev_data := scale_axis_value raw (object_properties_at dev index);
     ev_time := time; ev_seq := seq |}.

(** The event a button loop queues for slot [j] fed by bit [i]. *)
Definition button_event (dev : gamepad) (buttons time seq i j : Z) : event :=
  {| ev_index := object_index dev (Z.lor DIDFT_BUTTON (DIDFT_MAKEINSTANCE j));
     ev_data := button_value buttons i;
     ev_time := time; ev_seq := seq |}.

(** The event the hat block queues. *)
Definition pov_event (dev : gamepad) (d time seq : Z) : event :=
  {| ev_index := object_index dev (Z.lor DIDFT_POV (DIDFT_MAKEINSTANCE 0));
     ev_data := pov_value d;
     ev_time := time; ev_seq := seq |}.

(** The event the trigger block queues for the raw Z value [value]. *)
Definition trigger_event (dev : gamepad) (value time seq : Z) : event :=
  axis_event dev value 2 time seq.

(** The slot the standard variant gives bit [i] (0 <= i < 12). *)
Definition standard_slot (i : Z) : Z := button_slot i 0.

(** The events one call queues, in order, read off the comparisons against
    the stored sample [old]: what handle_standard and handle_xinput are shown
    to produce.  First the events of the four stick axes. *)
Definition stick_events (dev : gamepad) (rx_instance ry_instance : Z)
    (old new : gamepad_state) (time seq : Z) : list event :=
  (if thumb_lx new !=? thumb_lx old then [axis_event dev (thumb_lx new) 0 time seq] else [])
  ++ (if thumb_ly new !=? thumb_ly old then [axis_event dev (thumb_ly new) 1 time seq] else [])
  ++ (if thumb_rx new !=? thumb_rx old
      then [axis_event dev (thumb_rx new) rx_instance time seq] else [])
  ++ (if thumb_ry new !=? thumb_ry old
      then [axis_event dev (thumb_ry new) ry_instance time seq] else []).

(** The event of the hat switch. *)
Definition hat_events (dev : gamepad) (old new : gamepad_state) (time seq : Z)
    : list event :=
  if dpad new !=? dpad old then [pov_event dev (dpad new) time seq] else [].

(** The 12 button events of the standard variant, bit 0 first. *)
Definition standard_button_events (dev : gamepad) (buttons time seq : Z) : list event :=
  (fun i => button_event dev buttons time seq i (standard_slot i)) <$> seqZ 0 12.

(** The 10 button events of the Xbox-style variant, bit 0 first. *)
Definition xinput_button_events (dev : gamepad) (buttons time seq : Z) : list event :=
  (fun i => button_event dev buttons time seq i i) <$> seqZ 0 10.

(** The raw Z value of the merged trigger axis. *)
Definition merged_trigger (old new : gamepad_state) : Z :=
  if thumb_lz new !=? thumb_lz old then MulDiv (thumb_lz new) (-32768) 255
  else MulDiv (thumb_rz new) 32767 255.

(** The properties of the Z axis object, [DIDFT_ABSAXIS | DIDFT_MAKEINSTANCE (2)]. *)
Definition Z_axis_properties (dev : gamepad) : object_properties :=
  object_properties_at dev
    (object_index dev (Z.lor DIDFT_ABSAXIS (DIDFT_MAKEINSTANCE 2))).

Definition standard_events (dev : gamepad) (old new : gamepad_state) (time seq : Z)
    : list event :=
  stick_events dev 2 3 old new time seq
  ++ (if buttons new !=? buttons old
      then standard_button_events dev (buttons new) time seq else [])
  ++ hat_events dev old new time seq.

Definition xinput_events (dev : gamepad) (old new : gamepad_state) (time seq : Z)
    : list event :=
  stick_events dev 3 4 old new time seq
  ++ (if (thumb_lz new !=? thumb_lz old) || (thumb_rz new !=? thumb_rz old)
      then [trigger_event dev (merged_trigger old new) time seq] else [])
  ++ (if buttons new !=? buttons old
      then xinput_button_events dev (buttons new) time seq else [])
  ++ hat_events dev old new time seq.

(** An event carries the clock value [time] and the sequence number [seq]. *)
Definition stamped (time seq : Z) (e : event) : Prop :=
  ev_seq e = seq /\ ev_time e = time.

(** Samples that differ from [rest_state] in one field, or in the two
    triggers. *)
Definition press_A : gamepad_state := set_buttons 1 rest_state.
Definition squeeze_left : gamepad_state := set_thumb_lz 10 rest_state.
Definition squeeze_both : gamepad_state := set_thumb_lz 10 (set_thumb_rz 10 rest_state).
Definition hat_east : gamepad_state := set_dpad 2 rest_state.

(** ** Sample datagrams and networks *)

(** The four octets of a 32-bit value, lowest first. *)
Definition int_octets (z : Z) : list Z :=
  [z mod 256; (z / 256) mod 256; (z / 65536) mod 256; (z / 16777216) mod 256].

(** The two octets of a 16-bit value, lowest first. *)
Definition short_octets (z : Z) : list Z := [z mod 256; (z / 256) mod 256].

(** [data] filled up with zeros to the fixed frame of 64 octets. *)
Definition frame64 (data : list Z) : list Z := take 64 (data ++ replicate 64 0).

(** A GET_GAMEPAD response: code, id, capability flags, name_len field and
    the name octets that follow it. *)
Definition GET_GAMEPAD_response (id flags name_len : Z) (name : list Z) : list Z :=
  frame64 ([REQUEST_CODE_GET_GAMEPAD] ++ int_octets id ++ [flags mod 256]
           ++ int_octets name_len ++ name).

(** The octets of a GET_GAMEPAD_STATE push up to rz (19 octets). *)
Definition GET_GAMEPAD_STATE_octets (id : Z) (s : gamepad_state) : list Z :=
  [REQUEST_CODE_GET_GAMEPAD_STATE; 1] ++ int_octets id
  ++ short_octets (buttons s) ++ [dpad s mod 256]
  ++ short_octets (thumb_lx s) ++ short_octets (thumb_ly s)
  ++ short_octets (thumb_rx s) ++ short_octets (thumb_ry s)
  ++ [thumb_lz s mod 256; thumb_rz s mod 256].

(** What the local buffer holds before anything is received. *)
Definition stale_buffer : list Z := replicate 64 0.

(** A socket layer on which every call succeeds and [inc] is received. *)
Definition answering (inc : incoming) : network :=
  {| WSAStartup_ok := true; socket_ok := true; setsockopt_reuseaddr_ok := true;
     setsockopt_rcvtimeo_ok := true; bind_ok := true; sendto_ok := true;
     response := inc |}.

(** A socket layer on which sendto fails. *)
Definition send_fails : network :=
  {| WSAStartup_ok := true; socket_ok := true; setsockopt_reuseaddr_ok := true;
     setsockopt_rcvtimeo_ok := true; bind_ok := true; sendto_ok := false;
     response := socket_error |}.

(** The globals of gamepad.c before the first discovery. *)
Definition initial_globals : globals :=
  {| server_sock := false; winsock_loaded := false; connected_gamepad_id := 0;
     input_type := FLAG_DINPUT_MAPPER_XINPUT |}.

(** A socket create, option, bind, send or receive error during discovery. *)
Definition transport_failure (net : network) : Prop :=
  WSAStartup_ok net = false \/ socket_ok net = false
  \/ setsockopt_reuseaddr_ok net = false \/ setsockopt_rcvtimeo_ok net = false
  \/ bind_ok net = false \/ sendto_ok net = false \/ response net = socket_error.

(** Every field of the sample lies in the range of its C type. *)
Definition sample_in_range (s : gamepad_state) : Prop :=
  (-32768 <= buttons s <= 32767)
  /\ (-128 <= dpad s <= 127)
  /\ (-32768 <= thumb_lx s <= 32767)
  /\ (-32768 <= thumb_ly s <= 32767)
  /\ (-32768 <= thumb_rx s <= 32767)
  /\ (-32768 <= thumb_ry s <= 32767)
  /\ (0 <= thumb_lz s <= 255)
  /\ (0 <= thumb_rz s <= 255).

(** ** Further definitions for the properties of the whole file *)

(** A list has at least one element. *)
Definition nonempty {A : Type} (l : list A) : bool :=
  match l with
  | [] => false
  | _ :: _ => true
  end.

(** ** Acquisition and release *)

(** The datagram release_gamepad_request hands to sendto: BUFFER_SIZE octets
    of which only [buffer[0]] is written; the others are what the local array
    held.  The result of sendto is not looked at. *)
Definition release_gamepad_request (buffer : list Z) : list Z :=
  <[0%nat := REQUEST_CODE_RELEASE_GAMEPAD]> buffer.

(** gamepad_acquire: the outcome of get_gamepad_request (TRUE, NULL) is
    dropped, [read_event] is signalled and DI_OK returned.  The result is the
    HRESULT, the globals afterwards and the state of [read_event]. *)
Definition gamepad_acquire (net : network) (buffer : list Z) (g : globals)
    : HRESULT * globals * bool :=
  let '(_, g, _) := get_gamepad_request true None net buffer g in
  (DI_OK, g, true).

(** gamepad_unacquire.  [read_event] tells whether the event is signalled
    when WaitForSingleObject (read_event, INFINITE) is reached: the wait
    returns only then (None: the call does not return as long as nobody
    signals the event).  After the wait the release datagram is sent and the
    socket closed; the result is the HRESULT, the globals afterwards and the
    datagram handed to sendto. *)
Definition gamepad_unacquire (read_event : bool) (buffer : list Z) (g : globals)
    : option (HRESULT * globals * list Z) :=
  if read_event
  then Some (DI_OK, close_server_socket g, release_gamepad_request buffer)
  else None.

(** ** Calibrations within the reach of the scaler's arithmetic *)

(** The last three statements of scale_axis_value, for the edges and the
    physical bounds of the half it has chosen. *)
Definition clamp_or_interpolate (value log_min log_max phy_min phy_max : Z) : Z :=
  if value <=? log_min then phy_min
  else if log_max <=? value then phy_max
  else to_LONG (phy_min
                + MulDiv (to_LONG (value - log_min)) (to_LONG (phy_max - phy_min))
                         (to_LONG (log_max - log_min))).

(** A calibration on which no sum or difference of scale_axis_value leaves
    the LONG range: both ranges are ordered, their bounds lie between
    -INT_MAX and INT_MAX and their sums fit a LONG, and deadzone and
    saturation lie on the 0..10000 scale. *)
Definition calibration_fits (p : object_properties) : Prop :=
  (- INT_MAX <= logical_min p /\ logical_min p <= logical_max p
   /\ logical_max p <= INT_MAX /\ is_LONG (logical_min p + logical_max p))
  /\ (- INT_MAX <= range_min p /\ range_min p <= range_max p
      /\ range_max p <= INT_MAX /\ is_LONG (range_min p + range_max p))
  /\ 0 <= deadzone p <= 10000
  /\ 0 <= saturation p <= 10000.

(** ** Object descriptors and enumeration *)

Definition DIDOI_ASPECTPOSITION : Z := 0x100.
Definition HID_USAGE_PAGE_GENERIC : Z := 0x01.
Definition HID_USAGE_PAGE_BUTTON : Z := 0x09.
Definition HID_USAGE_GENERIC_X : Z := 0x30.
Definition HID_USAGE_GENERIC_Y : Z := 0x31.
Definition HID_USAGE_GENERIC_Z : Z := 0x32.
Definition HID_USAGE_GENERIC_RX : Z := 0x33.
Definition HID_USAGE_GENERIC_RY : Z := 0x34.
Definition HID_USAGE_GENERIC_RZ : Z := 0x35.
Definition HID_USAGE_GENERIC_HATSWITCH : Z := 0x39.


(** The DIJOFS_ offsets into DIJOYSTATE: six LONG axes, two LONG sliders,
    four DWORD hats from offset 32 and 32 BYTE buttons from offset 48. *)
Definition DIJOFS_X : Z := 0.
Definition DIJOFS_Y : Z := 4.
Definition DIJOFS_Z : Z := 8.
Definition DIJOFS_RX : Z := 12.
Definition DIJOFS_RY : Z := 16.
Definition DIJOFS_RZ : Z := 20.
Definition DIJOFS_POV (n : Z) : Z := 32 + 4 * n.
Definition DIJOFS_BUTTON (n : Z) : Z := 48 + n.

(** What the snapshot holds at byte offset [ofs]: the field that starts
    there, None where none of the fields above starts. *)
Definition field_at (ofs : Z) (s : DIJOYSTATE) : option Z :=
  if ofs =? DIJOFS_X then Some (lX s)
  else if ofs =? DIJOFS_Y then Some (lY s)
  else if ofs =? DIJOFS_Z then Some (lZ s)
  else if ofs =? DIJOFS_RX then Some (lRx s)
  else if ofs =? DIJOFS_RY then Some (lRy s)
  else if ofs =? DIJOFS_RZ then Some (lRz s)
  else if (32 <=? ofs) && (ofs <? 48) && (ofs mod 4 =? 0)
  then rgdwPOV s !! Z.to_nat ((ofs - 32) / 4)
  else if (48 <=? ofs) && (ofs <? 80) then rgbButtons s !! Z.to_nat (ofs - 48)
  else None.

Inductive GUID :=
| GUID_XAxis | GUID_YAxis | GUID_ZAxis
| GUID_RxAxis | GUID_RyAxis | GUID_RzAxis
| GUID_Button | GUID_POV.

(** DIDEVICEOBJECTINSTANCEW, the fields get_device_objects writes (the name
    is left out).  [dwFlags] is None where the descriptor, an element of an
    uninitialised local array, is not given one: buttons and the hat. *)
Record DIDEVICEOBJECTINSTANCEW := {
  guidType : GUID;
  dwOfs : Z;
  dwType : Z;
  dwFlags : option Z;
  wUsagePage : Z;
  wUsage : Z
}.

Definition axis_instance (guid : GUID) (ofs instance usage : Z) : DIDEVICEOBJECTINSTANCEW :=
  {| guidType := guid; dwOfs := ofs;
     dwType := Z.lor DIDFT_ABSAXIS (DIDFT_MAKEINSTANCE instance);
     dwFlags := Some DIDOI_ASPECTPOSITION;
     wUsagePage := HID_USAGE_PAGE_GENERIC; wUsage := usage |}.

Definition button_instance (i : Z) : DIDEVICEOBJECTINSTANCEW :=
  {| guidType := GUID_Button; dwOfs := DIJOFS_BUTTON i;
     dwType := Z.lor DIDFT_BUTTON (DIDFT_MAKEINSTANCE i);
     dwFlags := None;
     wUsagePage := HID_USAGE_PAGE_BUTTON; wUsage := i + 1 |}.

Definition pov_instance : DIDEVICEOBJECTINSTANCEW :=
  {| guidType := GUID_POV; dwOfs := DIJOFS_POV 0;
     dwType := Z.lor DIDFT_POV (DIDFT_MAKEINSTANCE 0);
     dwFlags := None;
     wUsagePage := HID_USAGE_PAGE_GENERIC; wUsage := HID_USAGE_GENERIC_HATSWITCH |}.

(** The descriptors get_device_objects writes, in order, into the array
    that is local to the branch of the active variant: 17 for the standard
    variant, 16 for the Xbox-style one, none when neither mapper bit is set.
    This is what is written, not what a caller finds: see
    [gamepad_enum_objects]. *)
Definition device_object_instances (input_type : Z) : list DIDEVICEOBJECTINSTANCEW :=
  if nonzero (Z.land input_type FLAG_DINPUT_MAPPER_STANDARD) then
    [ axis_instance GUID_XAxis DIJOFS_X 0 HID_USAGE_GENERIC_X;
      axis_instance GUID_YAxis DIJOFS_Y 1 HID_USAGE_GENERIC_Y;
      axis_instance GUID_ZAxis DIJOFS_Z 2 HID_USAGE_GENERIC_Z;
      axis_instance GUID_RzAxis DIJOFS_RZ 3 HID_USAGE_GENERIC_RZ ]
    ++ (button_instance <$> seqZ 0 12)
    ++ [pov_instance]
  else if nonzero (Z.land input_type FLAG_DINPUT_MAPPER_XINPUT) then
    [ axis_instance GUID_XAxis DIJOFS_X 0 HID_USAGE_GENERIC_X;
      axis_instance GUID_YAxis DIJOFS_Y 1 HID_USAGE_GENERIC_Y;
      axis_instance GUID_ZAxis DIJOFS_Z 2 HID_USAGE_GENERIC_Z;
      axis_instance GUID_RxAxis DIJOFS_RX 3 HID_USAGE_GENERIC_RX;
      axis_instance GUID_RyAxis DIJOFS_RY 4 HID_USAGE_GENERIC_RY ]
    ++ (button_instance <$> seqZ 0 10)
    ++ [pov_instance]
  else [].











(** ** Arithmetic of MulDiv *)

Section MulDivFacts.

Local Ltac zdiv := Z.to_euclidean_division_equations; nia.

Lemma to_LONG_id z : is_LONG z -> to_LONG z = z.
Proof. unfold is_LONG, INT_MIN, INT_MAX, to_LONG. intros H. zdiv. Qed.

Lemma to_LONG_range z : is_LONG (to_LONG z).
Proof. unfold is_LONG, INT_MIN, INT_MAX, to_LONG. zdiv. Qed.

(** With a positive divisor and non-negative operands MulDiv is the
    rounded quotient itself as long as it fits. *)
Lemma MulDiv_nonneg a b c :
  0 <= a -> 0 <= b -> 0 < c -> (a * b + c / 2) / c <= INT_MAX ->
  MulDiv a b c = (a * b + c / 2) / c.
Proof.
  intros Ha Hb Hc Hfit. unfold MulDiv.
  destruct (Z.eqb_spec c 0); [lia|].
  destruct (Z.ltb_spec c 0); [lia|].
  destruct (Z.ltb_spec a 0); [lia|].
  destruct (Z.leb_spec 0 a); [|lia].
  destruct (Z.leb_spec 0 b); [|lia].
  cbn [andb orb].
  rewrite (Z.quot_div_nonneg c 2) by lia.
  rewrite Z.quot_div_nonneg by (try lia; zdiv).
  destruct (Z.ltb_spec INT_MAX ((a * b + c / 2) / c)); [lia|].
  destruct (Z.ltb_spec ((a * b + c / 2) / c) (- INT_MAX)); [|reflexivity].
  unfold INT_MAX in *. zdiv.
Qed.

End MulDivFacts.

(** ** The axis scaler *)

Section Scaler.

Local Ltac zdiv := Z.to_euclidean_division_equations; nia.

Local Ltac cmp_cases :=
  repeat match goal with
    | |- context [?a <? ?b] => destruct (Z.ltb_spec a b)
    | |- context [?a <=? ?b] => destruct (Z.leb_spec a b)
    | |- context [?a =? ?b] => destruct (Z.eqb_spec a b)
    end; cbn [andb orb negb].

Lemma MulDiv_10000_mono x d s :
  0 <= x <= INT_MAX -> 0 <= d -> d <= s -> s <= 10000 ->
  MulDiv x d 10000 <= MulDiv x s 10000.
Proof.
  intros Hx Hd Hds Hs.
  rewrite !MulDiv_nonneg; unfold INT_MAX in *; try lia.
  - apply Z.div_le_mono; nia.
  - zdiv.
  - zdiv.
Qed.

Lemma MulDiv_10000_nonpos x d : x < 0 -> 0 <= d -> MulDiv x d 10000 <= 0.
Proof.
  intros Hx Hd. unfold MulDiv, INT_MAX.
  change (10000 =? 0) with false. change (10000 <? 0) with false. cbv iota.
  cmp_cases; try lia; zdiv.
Qed.

(** When the saturation edge of the lower half lies strictly beyond its
    deadzone edge, both edges are on the lower side of the center. *)
Lemma lower_edges_sign p :
  0 <= deadzone p -> deadzone p < saturation p -> saturation p <= 10000 ->
  saturation_edge_neg p < deadzone_edge_neg p ->
  saturation_edge_neg p < 0 /\ deadzone_edge_neg p <= 0.
Proof.
  unfold saturation_edge_neg, deadzone_edge_neg. intros Hd Hds Hs Hlt.
  pose proof (to_LONG_range (logical_min p - log_center p)) as Hr.
  set (x := to_LONG (logical_min p - log_center p)) in *.
  destruct (Z.lt_ge_cases x 0) as [Hneg|Hpos].
  - pose proof (MulDiv_10000_nonpos x (deadzone p) Hneg Hd). lia.
  - unfold is_LONG in Hr.
    pose proof (MulDiv_10000_mono x (deadzone p) (saturation p)). lia.
Qed.

(** C5, as stated, fails: on [full_range_axis] the input 2 lies above
    the input 1, yet MulDiv overflows on it and scale_value drops from
    2147483647 to -1. *)
Lemma scale_value_drops_on_overflow :
  logical_min full_range_axis < logical_max full_range_axis
  /\ range_min full_range_axis < range_max full_range_axis
  /\ 1 <= 2
  /\ scale_value 1 full_range_axis = 2147483647
  /\ scale_value 2 full_range_axis = -1
  /\ ~ scale_value 1 full_range_axis <= scale_value 2 full_range_axis.
Proof. vm_compute. repeat split; try discriminate; intros H; apply H; reflexivity. Qed.

(** C5, amended: when logical_min < logical_max and range_min < range_max,
    both spans fit a 32-bit signed integer and the range bounds are LONGs,
    scale_value is monotonic non-decreasing over the inputs between
    logical_min and logical_max, and maps logical_min to range_min and
    logical_max to range_max exactly: the MulDiv term is 0 at logical_min
    and range_max - range_min at logical_max. *)
Theorem scale_value_monotone_on_logical_range p v1 v2 :
  logical_min p < logical_max p -> range_min p < range_max p ->
  is_LONG (range_min p) -> is_LONG (range_max p) ->
  logical_max p - logical_min p <= INT_MAX ->
  range_max p - range_min p <= INT_MAX ->
  logical_min p <= v1 -> v1 <= v2 -> v2 <= logical_max p ->
  scale_value v1 p <= scale_value v2 p
  /\ scale_value (logical_min p) p = range_min p
  /\ scale_value (logical_max p) p = range_max p
  /\ MulDiv (to_LONG (logical_min p - logical_min p))
            (to_LONG (range_max p - range_min p))
            (to_LONG (logical_max p - logical_min p)) = 0
  /\ MulDiv (to_LONG (logical_max p - logical_min p))
            (to_LONG (range_max p - range_min p))
            (to_LONG (logical_max p - logical_min p)) = range_max p - range_min p.
Proof.
  intros Hlog Hphy Hmin Hmax Hd Hr Hlo Hle Hhi.
  assert (Hm : forall v, logical_min p <= v <= logical_max p ->
            MulDiv (to_LONG (v - logical_min p)) (to_LONG (range_max p - range_min p))
                   (to_LONG (logical_max p - logical_min p))
            = ((v - logical_min p) * (range_max p - range_min p)
               + (logical_max p - logical_min p) / 2)
              / (logical_max p - logical_min p)
            /\ 0 <= ((v - logical_min p) * (range_max p - range_min p)
                     + (logical_max p - logical_min p) / 2)
                    / (logical_max p - logical_min p)
                 <= range_max p - range_min p).
  { intros v Hv.
    assert (Hb : 0 <= ((v - logical_min p) * (range_max p - range_min p)
                     + (logical_max p - logical_min p) / 2)
                    / (logical_max p - logical_min p)
                 <= range_max p - range_min p) by zdiv.
    unfold is_LONG, INT_MIN, INT_MAX in *.
    rewrite (to_LONG_id (v - logical_min p)) by (unfold is_LONG, INT_MIN, INT_MAX; lia).
    rewrite (to_LONG_id (range_max p - range_min p))
      by (unfold is_LONG, INT_MIN, INT_MAX; lia).
    rewrite (to_LONG_id (logical_max p - logical_min p))
      by (unfold is_LONG, INT_MIN, INT_MAX; lia).
    rewrite MulDiv_nonneg by (unfold INT_MAX; lia).
    split; [reflexivity | exact Hb]. }
  assert (Hq : forall v, logical_min p <= v <= logical_max p ->
            scale_value v p
            = range_min p
              + ((v - logical_min p) * (range_max p - range_min p)
                 + (logical_max p - logical_min p) / 2)
                / (logical_max p - logical_min p)).
  { intros v Hv. unfold scale_value. destruct (Hm v Hv) as [-> Hb].
    apply to_LONG_id. unfold is_LONG, INT_MIN, INT_MAX in *. lia. }
  rewrite (Hq v1), (Hq v2), (Hq (logical_min p)), (Hq (logical_max p)) by lia.
  destruct (Hm (logical_min p)) as [-> _]; [lia|].
  destruct (Hm (logical_max p)) as [-> _]; [lia|].
  repeat split.
  - apply Z.add_le_mono_l, Z.div_le_mono; nia.
  - zdiv.
  - zdiv.
  - zdiv.
  - zdiv.
Qed.

Lemma scale_value_monotone_on_logical_range_witness :
  scale_value (-32768) calibrated_axis <= scale_value 12 calibrated_axis
  /\ scale_value (logical_min calibrated_axis) calibrated_axis
     = range_min calibrated_axis
  /\ scale_value (logical_max calibrated_axis) calibrated_axis
     = range_max calibrated_axis.
Proof.
  destruct (scale_value_monotone_on_logical_range calibrated_axis (-32768) 12)
    as (Hle & Hlo & Hhi & _);
    [vm_compute; try split; discriminate ..|].
  split; [exact Hle|]. split; [exact Hlo | exact Hhi].
Defined.

(** C1, as stated, fails where rounding makes the two edges of a half
    meet.  On [narrow_saturation_axis] the saturation edge of the lower half
    is 0, so the logical center 127 is sent to range_min (0) and not to the
    physical center 32767; on [wide_deadzone_axis] both upper edges are 50,
    so logical_max (100), which is at the saturation edge, is sent to the
    physical center 50 and not to range_max. *)
Lemma scale_axis_value_edges_meet :
  (logical_min narrow_saturation_axis < logical_max narrow_saturation_axis
   /\ range_min narrow_saturation_axis < range_max narrow_saturation_axis
   /\ 0 <= deadzone narrow_saturation_axis < saturation narrow_saturation_axis
   /\ saturation narrow_saturation_axis <= 10000
   /\ log_center narrow_saturation_axis = 127
   /\ phy_center narrow_saturation_axis = 32767
   /\ scale_axis_value 127 narrow_saturation_axis = 0
   /\ scale_axis_value (log_center narrow_saturation_axis) narrow_saturation_axis
      <> phy_center narrow_saturation_axis)
  /\ (logical_min wide_deadzone_axis < logical_max wide_deadzone_axis
      /\ range_min wide_deadzone_axis < range_max wide_deadzone_axis
      /\ 0 <= deadzone wide_deadzone_axis < saturation wide_deadzone_axis
      /\ saturation wide_deadzone_axis <= 10000
      /\ 0 < shifted 100 wide_deadzone_axis
      /\ saturation_edge_pos wide_deadzone_axis <= shifted 100 wide_deadzone_axis
      /\ range_max wide_deadzone_axis = 100
      /\ scale_axis_value 100 wide_deadzone_axis = 50
      /\ scale_axis_value 100 wide_deadzone_axis <> range_max wide_deadzone_axis).
Proof. vm_compute. repeat split; discriminate. Qed.

(** C1, amended: for properties with logical_min < logical_max,
    range_min < range_max and 0 <= deadzone < saturation <= 10000 whose
    rounded saturation edge lies strictly beyond the rounded deadzone edge
    on each half, scale_axis_value maps the logical center to the physical
    center, every input at or beyond the saturation edge of the lower
    (upper) half to range_min (range_max), and every input at or inside
    the deadzone edge of either half to the physical center. *)
Theorem scale_axis_value_center_and_clamps p :
  logical_min p < logical_max p -> range_min p < range_max p ->
  0 <= deadzone p -> deadzone p < saturation p -> saturation p <= 10000 ->
  saturation_edge_neg p < deadzone_edge_neg p ->
  deadzone_edge_pos p < saturation_edge_pos p ->
  scale_axis_value (log_center p) p = phy_center p
  /\ (forall v, shifted v p <= 0 -> shifted v p <= saturation_edge_neg p ->
                scale_axis_value v p = range_min p)
  /\ (forall v, 0 < shifted v p -> saturation_edge_pos p <= shifted v p ->
                scale_axis_value v p = range_max p)
  /\ (forall v, shifted v p <= 0 -> deadzone_edge_neg p <= shifted v p ->
                scale_axis_value v p = phy_center p)
  /\ (forall v, 0 < shifted v p -> shifted v p <= deadzone_edge_pos p ->
                scale_axis_value v p = phy_center p).
Proof.
  intros _ _ Hd Hds Hs Hneg Hpos.
  destruct (lower_edges_sign p Hd Hds Hs Hneg) as [Hsat Hdead].
  assert (Hc : shifted (log_center p) p = 0).
  { unfold shifted. rewrite Z.sub_diag. reflexivity. }
  repeat split.
  - unfold scale_axis_value. rewrite Hc. cbn [Z.leb Z.compare].
    cmp_cases; lia.
  - intros v H0 H1. unfold scale_axis_value. cmp_cases; lia.
  - intros v H0 H1. unfold scale_axis_value. cmp_cases; lia.
  - intros v H0 H1. unfold scale_axis_value. cmp_cases; lia.
  - intros v H0 H1. unfold scale_axis_value. cmp_cases; lia.
Qed.

Lemma scale_axis_value_center_and_clamps_witness :
  scale_axis_value (log_center calibrated_axis) calibrated_axis
  = phy_center calibrated_axis
  /\ (forall v, shifted v calibrated_axis <= 0 ->
                shifted v calibrated_axis <= saturation_edge_neg calibrated_axis ->
                scale_axis_value v calibrated_axis = range_min calibrated_axis)
  /\ (forall v, 0 < shifted v calibrated_axis ->
                saturation_edge_pos calibrated_axis <= shifted v calibrated_axis ->
                scale_axis_value v calibrated_axis = range_max calibrated_axis)
  /\ (forall v, shifted v calibrated_axis <= 0 ->
                deadzone_edge_neg calibrated_axis <= shifted v calibrated_axis ->
                scale_axis_value v calibrated_axis = phy_center calibrated_axis)
  /\ (forall v, 0 < shifted v calibrated_axis ->
                shifted v calibrated_axis <= deadzone_edge_pos calibrated_axis ->
                scale_axis_value v calibrated_axis = phy_center calibrated_axis).
Proof.
  apply (scale_axis_value_center_and_clamps calibrated_axis); vm_compute;
    first [reflexivity | discriminate].
Defined.

End Scaler.

(** ** The mapping engine *)

Arguments scale_axis_value : simpl never.
Arguments MulDiv : simpl never.
Arguments to_DWORD : simpl never.
Arguments to_LONG : simpl never.
Arguments pov_value : simpl never.
Arguments button_value : simpl never.
Arguments neqb : simpl never.
Arguments nonzero : simpl never.
Arguments Z.lor : simpl never.
Arguments DIDFT_MAKEINSTANCE : simpl never.

Section Blocks.

Variable dev : gamepad.
Variables time seq : Z.

Lemma neqb_spec a b : reflect (a <> b) (a !=? b).
Proof. unfold neqb. destruct (Z.eqb_spec a b); constructor; auto. Qed.

Lemma neqb_refl a : (a !=? a) = false.
Proof. unfold neqb. rewrite Z.eqb_refl. reflexivity. Qed.

Lemma neqb_true a b : a <> b -> (a !=? b) = true.
Proof. destruct (neqb_spec a b); [reflexivity | contradiction]. Qed.

Lemma neqb_false a b : (a !=? b) = false -> a = b.
Proof.
  destruct (neqb_spec a b) as [|E]; [discriminate|]. intros _.
  destruct (Z.eq_dec a b); [assumption | contradiction].
Qed.

Lemma changed_true test body c :
  test c = true -> changed test body c = set_notify (body c).
Proof. unfold changed. intros ->. reflexivity. Qed.

Lemma changed_false test body c : test c = false -> changed test body c = c.
Proof. unfold changed. intros ->. reflexivity. Qed.

(** Whatever holds of the frame before a block and is established by its
    body holds after the block. *)
Lemma changed_ind (I : frame -> Prop) test body c :
  I c -> (test c = true -> I (set_notify (body c))) -> I (changed test body c).
Proof. unfold changed. destruct (test c); auto. Qed.

Lemma changed_queued test body emit c :
  queued (body c) = queued c ++ emit ->
  queued (changed test body c) = queued c ++ (if test c then emit else []).
Proof.
  unfold changed. destruct (test c); cbn; [auto|]. intros _. symmetry. apply app_nil_r.
Qed.

(** *** Axis blocks *)

Lemma axis_block_sample {A} (f : gamepad_state -> A) raw stored_raw store instance set_axis c :
  (forall v s, f (store v s) = f s) ->
  f (sample (axis_block dev raw stored_raw store instance set_axis time seq c))
  = f (sample c).
Proof.
  intros Hf. unfold axis_block.
  apply (changed_ind (fun c' => f (sample c') = f (sample c)));
    [reflexivity | intros _; cbn; apply Hf].
Qed.

Lemma axis_block_stored raw stored_raw store instance set_axis c :
  (forall v s, stored_raw (store v s) = v) ->
  stored_raw (sample (axis_block dev raw stored_raw store instance set_axis time seq c))
  = raw.
Proof.
  intros Hf. unfold axis_block, changed.
  destruct (raw !=? stored_raw (sample c)) eqn:E; cbn; [apply Hf|].
  symmetry. apply neqb_false, E.
Qed.

Lemma axis_block_joystate {A} (h : DIJOYSTATE -> A) raw stored_raw store instance set_axis c :
  (forall v s, h (set_axis v s) = h s) ->
  h (joystate (axis_block dev raw stored_raw store instance set_axis time seq c))
  = h (joystate c).
Proof.
  intros Hh. unfold axis_block.
  apply (changed_ind (fun c' => h (joystate c') = h (joystate c)));
    [reflexivity | intros _; cbn; apply Hh].
Qed.

Lemma axis_block_queued raw stored_raw store instance set_axis c :
  queued (axis_block dev raw stored_raw store instance set_axis time seq c)
  = queued c ++ (if raw !=? stored_raw (sample c)
                 then [axis_event dev raw instance time seq] else []).
Proof. unfold axis_block. apply changed_queued. reflexivity. Qed.

(** *** Button loops *)

Lemma seqZ_0_12 : seqZ 0 12 = [0; 1; 2; 3; 4; 5; 6; 7; 8; 9; 10; 11].
Proof. reflexivity. Qed.

Lemma seqZ_0_10 : seqZ 0 10 = [0; 1; 2; 3; 4; 5; 6; 7; 8; 9].
Proof. reflexivity. Qed.

Lemma standard_button_loop_sample b c :
  sample (standard_button_loop dev b time seq c) = sample c.
Proof. reflexivity. Qed.

Lemma xinput_button_loop_sample b c :
  sample (xinput_button_loop dev b time seq c) = sample c.
Proof. reflexivity. Qed.

Lemma standard_button_loop_queued b c :
  queued (standard_button_loop dev b time seq c)
  = queued c
    ++ ((fun i => button_event dev b time seq i (standard_slot i)) <$> seqZ 0 12).
Proof.
  unfold standard_button_loop, standard_slot, button_step. rewrite seqZ_0_12. cbn.
  rewrite <- !app_assoc. reflexivity.
Qed.

Lemma xinput_button_loop_queued b c :
  queued (xinput_button_loop dev b time seq c)
  = queued c ++ ((fun i => button_event dev b time seq i i) <$> seqZ 0 10).
Proof.
  unfold xinput_button_loop, button_step. rewrite seqZ_0_10. cbn.
  rewrite <- !app_assoc. reflexivity.
Qed.

Lemma standard_button_loop_joystate {A} (h : DIJOYSTATE -> A) b c :
  (forall j v s, h (set_rgbButtons j v s) = h s) ->
  h (joystate (standard_button_loop dev b time seq c)) = h (joystate c).
Proof.
  intros Hh. unfold standard_button_loop, button_step. rewrite seqZ_0_12. cbn.
  rewrite !Hh. reflexivity.
Qed.

Lemma xinput_button_loop_joystate {A} (h : DIJOYSTATE -> A) b c :
  (forall j v s, h (set_rgbButtons j v s) = h s) ->
  h (joystate (xinput_button_loop dev b time seq c)) = h (joystate c).
Proof.
  intros Hh. unfold xinput_button_loop, button_step. rewrite seqZ_0_10. cbn.
  rewrite !Hh. reflexivity.
Qed.

(** *** Button blocks *)

Lemma buttons_block_sample {A} (f : gamepad_state -> A) loop nb c :
  (forall b c', sample (loop b time seq c') = sample c') ->
  (forall v s, f (set_buttons v s) = f s) ->
  f (sample (buttons_block loop nb time seq c)) = f (sample c).
Proof.
  intros Hl Hf. unfold buttons_block.
  apply (changed_ind (fun c' => f (sample c') = f (sample c)));
    [reflexivity | intros _; cbn; rewrite Hl; cbn; apply Hf].
Qed.

Lemma buttons_block_stored loop nb c :
  (forall b c', sample (loop b time seq c') = sample c') ->
  buttons (sample (buttons_block loop nb time seq c)) = nb.
Proof.
  intros Hl. unfold buttons_block, changed.
  destruct (nb !=? buttons (sample c)) eqn:E; cbn; [rewrite Hl; reflexivity|].
  symmetry. apply neqb_false, E.
Qed.

Lemma buttons_block_joystate {A} (h : DIJOYSTATE -> A) loop nb c :
  (forall b c', h (joystate (loop b time seq c')) = h (joystate c')) ->
  h (joystate (buttons_block loop nb time seq c)) = h (joystate c).
Proof.
  intros Hl. unfold buttons_block.
  apply (changed_ind (fun c' => h (joystate c') = h (joystate c)));
    [reflexivity | intros _; cbn; rewrite Hl; reflexivity].
Qed.

Lemma buttons_block_queued loop emit nb c :
  (forall b c', queued (loop b time seq c') = queued c' ++ emit b) ->
  queued (buttons_block loop nb time seq c)
  = queued c ++ (if nb !=? buttons (sample c) then emit nb else []).
Proof.
  intros Hl. unfold buttons_block.
  apply changed_queued with (emit := emit nb). rewrite Hl. reflexivity.
Qed.

(** *** The hat block *)

Lemma pov_block_sample {A} (f : gamepad_state -> A) nd c :
  (forall v s, f (set_dpad v s) = f s) ->
  f (sample (pov_block dev nd time seq c)) = f (sample c).
Proof.
  intros Hf. unfold pov_block.
  apply (changed_ind (fun c' => f (sample c') = f (sample c)));
    [reflexivity | intros _; cbn; apply Hf].
Qed.

Lemma pov_block_stored nd c : dpad (sample (pov_block dev nd time seq c)) = nd.
Proof.
  unfold pov_block, changed.
  destruct (nd !=? dpad (sample c)) eqn:E; cbn; [reflexivity|].
  symmetry. apply neqb_false, E.
Qed.

Lemma pov_block_joystate {A} (h : DIJOYSTATE -> A) nd c :
  (forall i v s, h (set_rgdwPOV i v s) = h s) ->
  h (joystate (pov_block dev nd time seq c)) = h (joystate c).
Proof.
  intros Hh. unfold pov_block.
  apply (changed_ind (fun c' => h (joystate c') = h (joystate c)));
    [reflexivity | intros _; cbn; apply Hh].
Qed.

Lemma pov_block_queued nd c :
  queued (pov_block dev nd time seq c)
  = queued c ++ (if nd !=? dpad (sample c) then [pov_event dev nd time seq] else []).
Proof. unfold pov_block. apply changed_queued. reflexivity. Qed.

Lemma pov_block_hat nd c :
  nd <> dpad (sample c) ->
  rgdwPOV (joystate (pov_block dev nd time seq c))
  = <[0%nat := pov_value nd]> (rgdwPOV (joystate c)).
Proof.
  intros Hne. unfold pov_block, changed. rewrite (neqb_true _ _ Hne). reflexivity.
Qed.

(** *** The trigger block *)

Lemma trigger_block_sample {A} (f : gamepad_state -> A) lz rz c :
  (forall v s, f (set_thumb_lz v s) = f s) ->
  (forall v s, f (set_thumb_rz v s) = f s) ->
  f (sample (trigger_block dev lz rz time seq c)) = f (sample c).
Proof.
  intros Hl Hr. unfold trigger_block.
  apply (changed_ind (fun c' => f (sample c') = f (sample c)));
    [reflexivity | intros _; cbn; rewrite Hr, Hl; reflexivity].
Qed.

Lemma trigger_block_stored lz rz c :
  thumb_lz (sample (trigger_block dev lz rz time seq c)) = lz
  /\ thumb_rz (sample (trigger_block dev lz rz time seq c)) = rz.
Proof.
  unfold trigger_block, changed.
  destruct (lz !=? thumb_lz (sample c)) eqn:El; cbn; [split; reflexivity|].
  destruct (rz !=? thumb_rz (sample c)) eqn:Er; cbn; [split; reflexivity|].
  split; symmetry; apply neqb_false; assumption.
Qed.

Lemma trigger_block_joystate {A} (h : DIJOYSTATE -> A) lz rz c :
  (forall v s, h (set_lZ v s) = h s) ->
  h (joystate (trigger_block dev lz rz time seq c)) = h (joystate c).
Proof.
  intros Hh. unfold trigger_block.
  apply (changed_ind (fun c' => h (joystate c') = h (joystate c)));
    [reflexivity | intros _; cbn; apply Hh].
Qed.

Lemma trigger_block_queued lz rz c :
  queued (trigger_block dev lz rz time seq c)
  = queued c
    ++ (if (lz !=? thumb_lz (sample c)) || (rz !=? thumb_rz (sample c))
        then [trigger_event dev
                (if lz !=? thumb_lz (sample c) then MulDiv lz (-32768) 255
                 else MulDiv rz 32767 255) time seq]
        else []).
Proof. unfold trigger_block. apply changed_queued. reflexivity. Qed.

Lemma trigger_block_lZ lz rz c :
  (lz !=? thumb_lz (sample c)) || (rz !=? thumb_rz (sample c)) = true ->
  lZ (joystate (trigger_block dev lz rz time seq c))
  = scale_axis_value
      (if lz !=? thumb_lz (sample c) then MulDiv lz (-32768) 255
       else MulDiv rz 32767 255)
      (object_properties_at dev
         (object_index dev (Z.lor DIDFT_ABSAXIS (DIDFT_MAKEINSTANCE 2)))).
Proof. intros Ht. unfold trigger_block, changed. rewrite Ht. reflexivity. Qed.

End Blocks.

(** ** What one call does *)

Ltac peel_sample :=
  repeat match goal with
    | |- context [?f (sample (pov_block ?d ?nd ?t ?q ?c))] =>
        rewrite (pov_block_sample d t q f nd c) by (intros; reflexivity)
    | |- context [?f (sample (buttons_block ?loop ?nb ?t ?q ?c))] =>
        rewrite (buttons_block_sample t q f loop nb c)
          by (intros; reflexivity)
    | |- context [?f (sample (trigger_block ?d ?lz ?rz ?t ?q ?c))] =>
        rewrite (trigger_block_sample d t q f lz rz c) by (intros; reflexivity)
    | |- context [?f (sample (axis_block ?d ?raw ?g ?st ?i ?sa ?t ?q ?c))] =>
        rewrite (axis_block_sample d t q f raw g st i sa c) by (intros; reflexivity)
    end.

Ltac peel_joystate :=
  repeat match goal with
    | |- context [?h (joystate (pov_block ?d ?nd ?t ?q ?c))] =>
        rewrite (pov_block_joystate d t q h nd c) by (intros; reflexivity)
    | |- context [?h (joystate (buttons_block ?loop ?nb ?t ?q ?c))] =>
        rewrite (buttons_block_joystate t q h loop nb c)
          by (intros;
              lazymatch goal with
              | |- context [standard_button_loop] => apply standard_button_loop_joystate
              | |- context [xinput_button_loop] => apply xinput_button_loop_joystate
              end; intros; reflexivity)
    | |- context [?h (joystate (trigger_block ?d ?lz ?rz ?t ?q ?c))] =>
        rewrite (trigger_block_joystate d t q h lz rz c) by (intros; reflexivity)
    | |- context [?h (joystate (axis_block ?d ?raw ?g ?st ?i ?sa ?t ?q ?c))] =>
        rewrite (axis_block_joystate d t q h raw g st i sa c) by (intros; reflexivity)
    end.

Section Engine.

Variable dev : gamepad.
Variable new : gamepad_state.
Variables time seq : Z.

Lemma handle_standard_queued c :
  queued (handle_standard dev new time seq c)
  = queued c ++ standard_events dev (sample c) new time seq.
Proof.
  unfold handle_standard, standard_events, stick_events, hat_events,
    standard_button_events. cbv zeta.
  rewrite pov_block_queued.
  rewrite (buttons_block_queued time seq (standard_button_loop dev)
             (fun b => (fun i => button_event dev b time seq i (standard_slot i))
                         <$> seqZ 0 12))
    by (intros; apply standard_button_loop_queued).
  rewrite !axis_block_queued.
  peel_sample.
  rewrite <- !app_assoc. reflexivity.
Qed.

Lemma handle_xinput_queued c :
  queued (handle_xinput dev new time seq c)
  = queued c ++ xinput_events dev (sample c) new time seq.
Proof.
  unfold handle_xinput, xinput_events, stick_events, hat_events,
    xinput_button_events, merged_trigger. cbv zeta.
  rewrite pov_block_queued.
  rewrite (buttons_block_queued time seq (xinput_button_loop dev)
             (fun b => (fun i => button_event dev b time seq i i) <$> seqZ 0 10))
    by (intros; apply xinput_button_loop_queued).
  rewrite trigger_block_queued.
  rewrite !axis_block_queued.
  peel_sample.
  rewrite <- !app_assoc. reflexivity.
Qed.

Lemma handle_xinput_stored_triggers c :
  thumb_lz (sample (handle_xinput dev new time seq c)) = thumb_lz new
  /\ thumb_rz (sample (handle_xinput dev new time seq c)) = thumb_rz new.
Proof.
  unfold handle_xinput. cbv zeta. peel_sample. apply trigger_block_stored.
Qed.

Lemma handle_xinput_sample_field f c :
  get f (sample (handle_xinput dev new time seq c)) = get f new.
Proof.
  destruct f; cbn [get]; try apply handle_xinput_stored_triggers;
    unfold handle_xinput; cbv zeta; peel_sample;
    first [ apply pov_block_stored
          | apply buttons_block_stored; intros; reflexivity
          | apply axis_block_stored; intros; reflexivity ].
Qed.

Lemma handle_xinput_lZ c :
  (thumb_lz new !=? thumb_lz (sample c)) || (thumb_rz new !=? thumb_rz (sample c)) = true ->
  lZ (joystate (handle_xinput dev new time seq c))
  = scale_axis_value
      (if thumb_lz new !=? thumb_lz (sample c) then MulDiv (thumb_lz new) (-32768) 255
       else MulDiv (thumb_rz new) 32767 255)
      (object_properties_at dev
         (object_index dev (Z.lor DIDFT_ABSAXIS (DIDFT_MAKEINSTANCE 2)))).
Proof.
  intros Ht. unfold handle_xinput. cbv zeta. peel_joystate.
  rewrite trigger_block_lZ; peel_sample; [reflexivity | exact Ht].
Qed.

Lemma handle_xinput_lZ_kept c :
  thumb_lz new = thumb_lz (sample c) -> thumb_rz new = thumb_rz (sample c) ->
  lZ (joystate (handle_xinput dev new time seq c)) = lZ (joystate c).
Proof.
  intros Hl Hr. unfold handle_xinput. cbv zeta. peel_joystate.
  unfold trigger_block. rewrite changed_false; [peel_joystate; reflexivity|].
  peel_sample. rewrite Hl, Hr, !neqb_refl. reflexivity.
Qed.

Lemma handle_standard_hat c :
  dpad new <> dpad (sample c) ->
  rgdwPOV (joystate (handle_standard dev new time seq c))
  = <[0%nat := pov_value (dpad new)]> (rgdwPOV (joystate c)).
Proof.
  intros Hd. unfold handle_standard. cbv zeta.
  rewrite pov_block_hat by (peel_sample; exact Hd).
  peel_joystate. reflexivity.
Qed.

Lemma handle_xinput_hat c :
  dpad new <> dpad (sample c) ->
  rgdwPOV (joystate (handle_xinput dev new time seq c))
  = <[0%nat := pov_value (dpad new)]> (rgdwPOV (joystate c)).
Proof.
  intros Hd. unfold handle_xinput. cbv zeta.
  rewrite pov_block_hat by (peel_sample; exact Hd).
  peel_joystate. reflexivity.
Qed.

Lemma handle_standard_rgbButtons c :
  buttons new <> buttons (sample c) ->
  rgbButtons (joystate (handle_standard dev new time seq c))
  = rgbButtons
      (joystate (standard_button_loop dev (buttons new) time seq
                   {| sample := sample c; joystate := joystate c;
                      notify := notify c; queued := queued c |})).
Proof.
  intros Hb. unfold handle_standard. cbv zeta. peel_joystate.
  unfold buttons_block at 1. rewrite changed_true by (peel_sample; apply neqb_true, Hb).
  unfold standard_button_loop, button_step. rewrite seqZ_0_12. cbn.
  peel_joystate. reflexivity.
Qed.

End Engine.

(** ** Events and state of gamepad_handle_input *)

Lemma run_input_queued g dev new time :
  queued (run_input g dev new time)
  = if mapper_standard g
    then standard_events dev (state dev) new time (evsequence dev)
    else if mapper_xinput g
    then xinput_events dev (state dev) new time (evsequence dev)
    else [].
Proof.
  unfold run_input.
  destruct (mapper_standard g); [rewrite handle_standard_queued; reflexivity|].
  destruct (mapper_xinput g); [rewrite handle_xinput_queued; reflexivity|].
  reflexivity.
Qed.

Lemma standard_events_same dev s time seq : standard_events dev s s time seq = [].
Proof.
  unfold standard_events, stick_events, hat_events. rewrite !neqb_refl. reflexivity.
Qed.

Lemma xinput_events_same dev s time seq : xinput_events dev s s time seq = [].
Proof.
  unfold xinput_events, stick_events, hat_events. rewrite !neqb_refl. reflexivity.
Qed.

Lemma stamped_when (b : bool) time seq l :
  Forall (stamped time seq) l -> Forall (stamped time seq) (if b then l else []).
Proof. destruct b; [auto | constructor]. Qed.

Lemma standard_events_stamped dev old new time seq :
  Forall (stamped time seq) (standard_events dev old new time seq).
Proof.
  unfold standard_events, stick_events, hat_events, standard_button_events.
  rewrite seqZ_0_12.
  repeat (apply Forall_app; split); apply stamped_when;
    repeat constructor.
Qed.

Lemma xinput_events_stamped dev old new time seq :
  Forall (stamped time seq) (xinput_events dev old new time seq).
Proof.
  unfold xinput_events, stick_events, hat_events, xinput_button_events.
  rewrite seqZ_0_10.
  repeat (apply Forall_app; split); apply stamped_when;
    repeat constructor.
Qed.

Lemma same_field f' f old new :
  differs_exactly_in f old new -> f' <> f -> (get f' new !=? get f' old) = false.
Proof. intros [_ Ho] Hne. rewrite (Ho f' Hne). apply neqb_refl. Qed.

Lemma diff_field f old new :
  differs_exactly_in f old new -> (get f new !=? get f old) = true.
Proof. intros [Hf _]. apply neqb_true. congruence. Qed.

Ltac field_fact H f' :=
  first
    [ let E := fresh "E" in
      pose proof (same_field f' _ _ _ H ltac:(discriminate)) as E;
      cbn [get] in E; rewrite ?E; clear E
    | let E := fresh "E" in
      pose proof (diff_field _ _ _ H) as E;
      cbn [get] in E; rewrite ?E; clear E ].

Ltac field_facts H :=
  field_fact H F_buttons; field_fact H F_dpad; field_fact H F_lx; field_fact H F_ly;
  field_fact H F_rx; field_fact H F_ry; field_fact H F_lz; field_fact H F_rz.

Lemma standard_events_count dev old new time seq f :
  differs_exactly_in f old new ->
  length (standard_events dev old new time seq)
  = match f with F_buttons => 12 | F_lz | F_rz => 0 | _ => 1 end%nat.
Proof.
  intros H. unfold standard_events, stick_events, hat_events.
  destruct f; field_facts H; reflexivity.
Qed.

Lemma xinput_events_count dev old new time seq f :
  differs_exactly_in f old new ->
  length (xinput_events dev old new time seq)
  = match f with F_buttons => 10 | _ => 1 end%nat.
Proof.
  intros H. unfold xinput_events, stick_events, hat_events.
  destruct f; field_facts H; reflexivity.
Qed.

(** C2, as stated, fails.  In the standard variant a sample that differs
    from the stored one only in the button bitmask queues 12 events while the
    sequence counter advances by one, from 1 to 2, and all 12 events carry the
    same sequence number 1; a sample that differs only in lz queues no event
    at all. *)
Lemma sequence_counter_ignores_event_count :
  (differs_exactly_in F_buttons (state (fresh_device (input_type standard_globals))) press_A
   /\ length (snd (gamepad_handle_input standard_globals
                     (fresh_device (input_type standard_globals)) press_A 0)) = 12%nat
   /\ evsequence (fresh_device (input_type standard_globals)) = 1
   /\ evsequence (fst (gamepad_handle_input standard_globals
                         (fresh_device (input_type standard_globals)) press_A 0)) = 2
   /\ ev_seq <$> snd (gamepad_handle_input standard_globals
                        (fresh_device (input_type standard_globals)) press_A 0)
      = replicate 12 1)
  /\ (differs_exactly_in F_lz (state (fresh_device (input_type standard_globals)))
        squeeze_left
      /\ snd (gamepad_handle_input standard_globals
                (fresh_device (input_type standard_globals)) squeeze_left 0) = []).
Proof.
  repeat split; try (vm_compute; reflexivity); try discriminate;
    intros f' Hf'; destruct f'; try reflexivity; contradiction.
Qed.

(** C2, amended: one call advances the sequence counter by exactly one
    (modulo 2^32), whatever the number of events, and every event it queues
    carries the counter's value before the call and the call's clock value,
    so the sequence numbers within a call are equal.  The counter is the one
    of the dinput object, which several devices share: any later call made
    while the counter holds the next value, on the device this call leaves
    or on any other, whatever the globals then, stamps its events with that
    value.  It is larger by one than this call's number as long as this
    call's number is below 4294967295; after 4294967295 it is 0, so across
    the wrap the numbers drop.  A sample identical to the stored one queues
    no event; a sample that differs from the stored one in exactly one field
    queues one event, except that the button bitmask queues 12 (standard) or
    10 (Xbox-style) events, lz or rz queue none in the standard variant, and
    nothing is queued when neither mapper bit is set. *)
Theorem handle_input_events_and_sequence g dev new time :
  evsequence (fst (gamepad_handle_input g dev new time)) = to_DWORD (evsequence dev + 1)
  /\ Forall (stamped time (evsequence dev)) (snd (gamepad_handle_input g dev new time))
  /\ (forall next time',
        Forall (stamped time' (to_DWORD (evsequence dev + 1)))
          (snd (gamepad_handle_input g (fst (gamepad_handle_input g dev new time))
                  next time')))
  /\ (forall g' dev' next time',
        evsequence dev' = to_DWORD (evsequence dev + 1) ->
        Forall (stamped time' (to_DWORD (evsequence dev + 1)))
          (snd (gamepad_handle_input g' dev' next time')))
  /\ (forall g' dev' next time' e e',
        evsequence dev' = to_DWORD (evsequence dev + 1) ->
        e ∈ snd (gamepad_handle_input g dev new time) ->
        e' ∈ snd (gamepad_handle_input g' dev' next time') ->
        (0 <= evsequence dev < 4294967295 -> ev_seq e' = ev_seq e + 1)
        /\ (evsequence dev = 4294967295 -> ev_seq e' = 0 /\ ev_seq e' < ev_seq e))
  /\ (new = state dev -> snd (gamepad_handle_input g dev new time) = [])
  /\ (forall f, differs_exactly_in f (state dev) new ->
                length (snd (gamepad_handle_input g dev new time))
                = events_for (input_type g) f).
Proof.
  assert (Hstamp : forall g0 d n t,
             Forall (stamped t (evsequence d)) (snd (gamepad_handle_input g0 d n t))).
  { intros g0 d n t. unfold gamepad_handle_input. cbn [snd]. rewrite run_input_queued.
    destruct (mapper_standard g0); [apply standard_events_stamped|].
    destruct (mapper_xinput g0); [apply xinput_events_stamped | constructor]. }
  split; [reflexivity|]. split; [apply Hstamp|].
  split; [intros next time'; apply (Hstamp g (fst (gamepad_handle_input g dev new time)))|].
  split; [intros g' dev' next time' <-; apply Hstamp|].
  split.
  { intros g' dev' next time' e e' Hnext He He'.
    pose proof (Hstamp g dev new time) as H1.
    pose proof (Hstamp g' dev' next time') as H2.
    rewrite Forall_forall in H1, H2.
    destruct (H1 e He) as [Hs _]. destruct (H2 e' He') as [Hs' _].
    rewrite Hs, Hs', Hnext. unfold to_DWORD. split.
    - intros Hr. apply Z.mod_small. lia.
    - intros ->. split; [reflexivity|]. change ((4294967295 + 1) mod 4294967296) with 0.
      lia. }
  unfold gamepad_handle_input. cbn [fst snd evsequence].
  rewrite run_input_queued. unfold events_for.
  change (nonzero (Z.land (input_type g) FLAG_DINPUT_MAPPER_STANDARD))
    with (mapper_standard g).
  change (nonzero (Z.land (input_type g) FLAG_DINPUT_MAPPER_XINPUT))
    with (mapper_xinput g).
  destruct (mapper_standard g); [|destruct (mapper_xinput g)].
  - split; [intros ->; apply standard_events_same|].
    intros f. apply standard_events_count.
  - split; [intros ->; apply xinput_events_same|].
    intros f. apply xinput_events_count.
  - split; reflexivity.
Qed.

(** *** The merged trigger axis of the Xbox-style variant *)

Lemma xinput_run g dev new time :
  mapper_standard g = false -> mapper_xinput g = true ->
  run_input g dev new time
  = handle_xinput dev new time (evsequence dev)
      {| sample := state dev; joystate := device_state dev;
         notify := false; queued := [] |}.
Proof. intros Hs Hx. unfold run_input. rewrite Hs, Hx. reflexivity. Qed.

Lemma standard_run g dev new time :
  mapper_standard g = true ->
  run_input g dev new time
  = handle_standard dev new time (evsequence dev)
      {| sample := state dev; joystate := device_state dev;
         notify := false; queued := [] |}.
Proof. intros Hs. unfold run_input. rewrite Hs. reflexivity. Qed.

Lemma xinput_events_of_call g dev new time :
  mapper_standard g = false -> mapper_xinput g = true ->
  snd (gamepad_handle_input g dev new time)
  = xinput_events dev (state dev) new time (evsequence dev).
Proof.
  intros Hs Hx. unfold gamepad_handle_input. cbn [snd].
  rewrite run_input_queued, Hs, Hx. reflexivity.
Qed.

Lemma standard_events_of_call g dev new time :
  mapper_standard g = true ->
  snd (gamepad_handle_input g dev new time)
  = standard_events dev (state dev) new time (evsequence dev).
Proof.
  intros Hs. unfold gamepad_handle_input. cbn [snd].
  rewrite run_input_queued, Hs. reflexivity.
Qed.

(** C3: in the Xbox-style variant, when the new lz differs from the stored
    lz the Z axis becomes scale_axis_value (MulDiv (lz, -32768, 255)); when lz
    is unchanged and rz differs it becomes
    scale_axis_value (MulDiv (rz, 32767, 255)); and for stored lz = rz = 0 and
    a new sample with lz = rz = 10 the Z axis has the lz-derived value and the
    call queues exactly one event for the trigger block, carrying that value,
    between the events of the sticks and those of the buttons and the hat (it
    is the only event when no other field changed). *)
Theorem xinput_trigger_priority g dev new time :
  mapper_standard g = false -> mapper_xinput g = true ->
  (thumb_lz new <> thumb_lz (state dev) ->
   lZ (device_state (fst (gamepad_handle_input g dev new time)))
   = scale_axis_value (MulDiv (thumb_lz new) (-32768) 255) (Z_axis_properties dev))
  /\ (thumb_lz new = thumb_lz (state dev) -> thumb_rz new <> thumb_rz (state dev) ->
      lZ (device_state (fst (gamepad_handle_input g dev new time)))
      = scale_axis_value (MulDiv (thumb_rz new) 32767 255) (Z_axis_properties dev))
  /\ (thumb_lz (state dev) = 0 -> thumb_rz (state dev) = 0 ->
      thumb_lz new = 10 -> thumb_rz new = 10 ->
      lZ (device_state (fst (gamepad_handle_input g dev new time)))
      = scale_axis_value (MulDiv 10 (-32768) 255) (Z_axis_properties dev)
      /\ snd (gamepad_handle_input g dev new time)
         = stick_events dev 3 4 (state dev) new time (evsequence dev)
           ++ [trigger_event dev (MulDiv 10 (-32768) 255) time (evsequence dev)]
           ++ (if buttons new !=? buttons (state dev)
               then xinput_button_events dev (buttons new) time (evsequence dev)
               else [])
           ++ hat_events dev (state dev) new time (evsequence dev)
      /\ ((forall f, f <> F_lz -> f <> F_rz -> get f (state dev) = get f new) ->
          snd (gamepad_handle_input g dev new time)
          = [trigger_event dev (MulDiv 10 (-32768) 255) time (evsequence dev)])).
Proof.
  intros Hs Hx.
  assert (Hz : (thumb_lz new !=? thumb_lz (state dev))
               || (thumb_rz new !=? thumb_rz (state dev)) = true ->
               lZ (device_state (fst (gamepad_handle_input g dev new time)))
               = scale_axis_value (merged_trigger (state dev) new) (Z_axis_properties dev)).
  { intros Ht. unfold gamepad_handle_input. cbn [fst device_state].
    rewrite (xinput_run g dev new time Hs Hx).
    rewrite handle_xinput_lZ by exact Ht. reflexivity. }
  rewrite (xinput_events_of_call g dev new time Hs Hx).
  unfold merged_trigger in Hz. unfold xinput_events, merged_trigger.
  split; [|split].
  - intros Hl. rewrite (neqb_true _ _ Hl) in Hz. apply Hz. reflexivity.
  - intros Hl Hr. rewrite Hl, neqb_refl, (neqb_true _ _ Hr) in Hz.
    apply Hz. reflexivity.
  - intros Hl0 Hr0 Hl Hr. rewrite Hl0, Hr0, Hl, Hr in *.
    change (10 !=? 0) with true in *. cbn [orb] in *.
    split; [apply Hz; reflexivity|]. split; [reflexivity|].
    intros Ho. unfold stick_events, hat_events.
    pose proof (Ho F_lx ltac:(discriminate) ltac:(discriminate)) as E1.
    pose proof (Ho F_ly ltac:(discriminate) ltac:(discriminate)) as E2.
    pose proof (Ho F_rx ltac:(discriminate) ltac:(discriminate)) as E3.
    pose proof (Ho F_ry ltac:(discriminate) ltac:(discriminate)) as E4.
    pose proof (Ho F_buttons ltac:(discriminate) ltac:(discriminate)) as E5.
    pose proof (Ho F_dpad ltac:(discriminate) ltac:(discriminate)) as E6.
    cbn [get] in *. rewrite <- E1, <- E2, <- E3, <- E4, <- E5, <- E6.
    rewrite !neqb_refl. reflexivity.
Qed.

Lemma xinput_trigger_priority_witness :
  lZ (device_state (fst (gamepad_handle_input xinput_globals
                           (fresh_device (input_type xinput_globals)) squeeze_both 0)))
  = scale_axis_value (MulDiv 10 (-32768) 255)
      (Z_axis_properties (fresh_device (input_type xinput_globals)))
  /\ snd (gamepad_handle_input xinput_globals
            (fresh_device (input_type xinput_globals)) squeeze_both 0)
     = [trigger_event (fresh_device (input_type xinput_globals))
          (MulDiv 10 (-32768) 255) 0 1].
Proof.
  destruct (xinput_trigger_priority xinput_globals
              (fresh_device (input_type xinput_globals)) squeeze_both 0
              eq_refl eq_refl) as (_ & _ & H).
  destruct (H eq_refl eq_refl eq_refl eq_refl) as (Hz & _ & He).
  split; [exact Hz|]. apply He.
  intros f Hl Hr. destruct f; try reflexivity; contradiction.
Defined.

(** C10: in the Xbox-style variant, when lz or rz differs from the stored
    sample, the call stores both new trigger values and queues a single event
    for the trigger block, whose value comes from lz when lz changed and from
    rz otherwise; afterwards a sample with the same lz and rz leaves the Z axis
    as it is and queues no trigger event, so an rz change that came together
    with an lz change never gets an event of its own. *)
Theorem xinput_triggers_absorbed g dev new time :
  mapper_standard g = false -> mapper_xinput g = true ->
  thumb_lz new <> thumb_lz (state dev) \/ thumb_rz new <> thumb_rz (state dev) ->
  thumb_lz (state (fst (gamepad_handle_input g dev new time))) = thumb_lz new
  /\ thumb_rz (state (fst (gamepad_handle_input g dev new time))) = thumb_rz new
  /\ snd (gamepad_handle_input g dev new time)
     = stick_events dev 3 4 (state dev) new time (evsequence dev)
       ++ [trigger_event dev (merged_trigger (state dev) new) time (evsequence dev)]
       ++ (if buttons new !=? buttons (state dev)
           then xinput_button_events dev (buttons new) time (evsequence dev)
           else [])
       ++ hat_events dev (state dev) new time (evsequence dev)
  /\ (forall later time',
        thumb_lz later = thumb_lz new -> thumb_rz later = thumb_rz new ->
        lZ (device_state
              (fst (gamepad_handle_input g (fst (gamepad_handle_input g dev new time))
                      later time')))
        = lZ (device_state (fst (gamepad_handle_input g dev new time)))
        /\ snd (gamepad_handle_input g (fst (gamepad_handle_input g dev new time))
                  later time')
           = stick_events dev 3 4 new later time' (to_DWORD (evsequence dev + 1))
             ++ (if buttons later !=? buttons new
                 then xinput_button_events dev (buttons later) time'
                        (to_DWORD (evsequence dev + 1))
                 else [])
             ++ hat_events dev new later time' (to_DWORD (evsequence dev + 1))).
Proof.
  intros Hs Hx Hne.
  assert (Hst : forall f,
             get f (state (fst (gamepad_handle_input g dev new time))) = get f new).
  { intros f. unfold gamepad_handle_input. cbn [fst state].
    rewrite (xinput_run g dev new time Hs Hx). apply handle_xinput_sample_field. }
  split; [exact (Hst F_lz)|]. split; [exact (Hst F_rz)|]. split.
  - rewrite (xinput_events_of_call g dev new time Hs Hx). unfold xinput_events.
    replace ((thumb_lz new !=? thumb_lz (state dev))
             || (thumb_rz new !=? thumb_rz (state dev))) with true; [reflexivity|].
    symmetry. apply orb_true_iff.
    destruct Hne as [H|H]; [left|right]; apply neqb_true, H.
  - intros later time' Hl Hr.
    set (dev' := fst (gamepad_handle_input g dev new time)) in *.
    split.
    + unfold gamepad_handle_input at 1. cbn [fst device_state].
      rewrite (xinput_run g dev' later time' Hs Hx).
      apply handle_xinput_lZ_kept; cbn [sample].
      * rewrite Hl. symmetry. exact (Hst F_lz).
      * rewrite Hr. symmetry. exact (Hst F_rz).
    + rewrite (xinput_events_of_call g dev' later time' Hs Hx).
      unfold xinput_events, stick_events, hat_events, merged_trigger.
      pose proof (Hst F_lx) as E1. pose proof (Hst F_ly) as E2.
      pose proof (Hst F_rx) as E3. pose proof (Hst F_ry) as E4.
      pose proof (Hst F_lz) as E5. pose proof (Hst F_rz) as E6.
      pose proof (Hst F_buttons) as E7. pose proof (Hst F_dpad) as E8.
      cbn [get] in *. rewrite E1, E2, E3, E4, E5, E6, E7, E8.
      rewrite Hl, Hr, !neqb_refl. reflexivity.
Qed.

Lemma xinput_triggers_absorbed_witness :
  thumb_lz (state (fst (gamepad_handle_input xinput_globals
                          (fresh_device (input_type xinput_globals)) squeeze_both 0))) = 10
  /\ thumb_rz (state (fst (gamepad_handle_input xinput_globals
                             (fresh_device (input_type xinput_globals)) squeeze_both 0))) = 10
  /\ length (snd (gamepad_handle_input xinput_globals
                    (fresh_device (input_type xinput_globals)) squeeze_both 0)) = 1%nat
  /\ snd (gamepad_handle_input xinput_globals
            (fst (gamepad_handle_input xinput_globals
                    (fresh_device (input_type xinput_globals)) squeeze_both 0))
            squeeze_both 1) = [].
Proof.
  destruct (xinput_triggers_absorbed xinput_globals
              (fresh_device (input_type xinput_globals)) squeeze_both 0
              eq_refl eq_refl) as (Hl & Hr & He & Hlater).
  { left. discriminate. }
  split; [exact Hl|]. split; [exact Hr|]. split.
  - rewrite He. reflexivity.
  - destruct (Hlater squeeze_both 1 eq_refl eq_refl) as [_ E]. rewrite E. reflexivity.
Defined.

(** *** The hat switch *)

Lemma pov_value_direction d : 0 <= d <= 7 -> pov_value d = d * 4500.
Proof.
  intros Hd. unfold pov_value. rewrite neqb_true by lia.
  unfold to_DWORD. apply Z.mod_small. lia.
Qed.

Lemma hat_of_call g dev new time :
  mapper_standard g = true \/ mapper_xinput g = true ->
  dpad new <> dpad (state dev) ->
  rgdwPOV (device_state (fst (gamepad_handle_input g dev new time)))
  = <[0%nat := pov_value (dpad new)]> (rgdwPOV (device_state dev))
  /\ last (snd (gamepad_handle_input g dev new time))
     = Some (pov_event dev (dpad new) time (evsequence dev)).
Proof.
  intros Hv Hd. unfold gamepad_handle_input. cbn [fst snd device_state].
  rewrite run_input_queued. unfold run_input.
  assert (Hl : forall l, last (l ++ hat_events dev (state dev) new time (evsequence dev))
                         = Some (pov_event dev (dpad new) time (evsequence dev))).
  { intros l. unfold hat_events. rewrite (neqb_true _ _ Hd). apply last_snoc. }
  destruct (mapper_standard g).
  - split; [apply handle_standard_hat; exact Hd|].
    unfold standard_events. rewrite !app_assoc. apply Hl.
  - destruct Hv as [Hv|Hv]; [discriminate|]. rewrite Hv.
    split; [apply handle_xinput_hat; exact Hd|].
    unfold xinput_events. rewrite !app_assoc. apply Hl.
Qed.

(** C8: in both variants, when the dpad value differs from the stored one,
    a raw value d in 0..7 sets rgdwPOV[0] to d * 4500 (9000 for d = 2) and the
    raw value -1 sets it to -1, that is to the DWORD 0xFFFFFFFF whose signed
    reading is -1; the last event of the call carries that value for the hat
    object. *)
Theorem hat_switch_value g dev new time :
  mapper_standard g = true \/ mapper_xinput g = true ->
  dpad new <> dpad (state dev) ->
  length (rgdwPOV (device_state dev)) = 4%nat ->
  (0 <= dpad new <= 7 ->
   rgdwPOV (device_state (fst (gamepad_handle_input g dev new time))) !! 0%nat
   = Some (dpad new * 4500)
   /\ ev_data <$> last (snd (gamepad_handle_input g dev new time))
      = Some (dpad new * 4500))
  /\ (dpad new = 2 ->
      rgdwPOV (device_state (fst (gamepad_handle_input g dev new time))) !! 0%nat
      = Some 9000)
  /\ (dpad new = -1 ->
      rgdwPOV (device_state (fst (gamepad_handle_input g dev new time))) !! 0%nat
      = Some (to_DWORD (-1))
      /\ ev_data <$> last (snd (gamepad_handle_input g dev new time))
         = Some (to_DWORD (-1))
      /\ to_DWORD (-1) = 4294967295
      /\ to_LONG (to_DWORD (-1)) = -1).
Proof.
  intros Hv Hd Hlen.
  destruct (hat_of_call g dev new time Hv Hd) as [Hpov Hev].
  rewrite Hpov, Hev. cbn [fmap option_fmap option_map pov_event ev_data].
  assert (H0 : forall v, <[0%nat := v]> (rgdwPOV (device_state dev)) !! 0%nat = Some v).
  { intros v. apply list_lookup_insert_eq. lia. }
  rewrite H0. split; [|split].
  - intros Hr. rewrite (pov_value_direction _ Hr). split; reflexivity.
  - intros ->. reflexivity.
  - intros ->. repeat split; reflexivity.
Qed.

Lemma hat_switch_value_witness :
  rgdwPOV (device_state (fst (gamepad_handle_input standard_globals
                                (fresh_device (input_type standard_globals)) hat_east 0)))
    !! 0%nat = Some 9000.
Proof.
  apply (hat_switch_value standard_globals (fresh_device (input_type standard_globals))
           hat_east 0); [left; reflexivity | discriminate | reflexivity | reflexivity].
Defined.

(** *** The buttons of the standard variant *)

Lemma button_value_testbit b i :
  0 <= i -> button_value b i = if Z.testbit b i then 0x80 else 0x00.
Proof.
  intros Hi. unfold button_value, nonzero. rewrite Z.shiftl_1_l.
  destruct (Z.testbit b i) eqn:E.
  - destruct (Z.eqb_spec (Z.land b (2 ^ i)) 0) as [H0|]; [|reflexivity].
    exfalso.
    assert (H : Z.testbit (Z.land b (2 ^ i)) i = true).
    { rewrite Z.land_spec, E, Z.pow2_bits_eqb, Z.eqb_refl by lia. reflexivity. }
    rewrite H0, Z.bits_0 in H. discriminate.
  - replace (Z.land b (2 ^ i)) with 0; [reflexivity|].
    symmetry. apply Z.bits_inj'. intros n Hn.
    rewrite Z.land_spec, Z.bits_0, Z.pow2_bits_eqb by lia.
    destruct (Z.eqb_spec i n) as [->|]; [rewrite E; reflexivity | apply andb_false_r].
Qed.

Lemma standard_button_loop_slots dev b time seq c i :
  length (rgbButtons (joystate c)) = 32%nat ->
  0 <= i < 12 ->
  rgbButtons (joystate (standard_button_loop dev b time seq c))
    !! Z.to_nat (standard_slot i)
  = Some (button_value b i).
Proof.
  intros Hlen Hi.
  unfold standard_button_loop, button_step. rewrite seqZ_0_12. cbn.
  assert (Hcases : i = 0 \/ i = 1 \/ i = 2 \/ i = 3 \/ i = 4 \/ i = 5 \/ i = 6
                   \/ i = 7 \/ i = 8 \/ i = 9 \/ i = 10 \/ i = 11) by lia.
  repeat destruct Hcases as [-> | Hcases]; try subst i.
  all: repeat first
         [ rewrite list_lookup_insert_eq by (rewrite ?length_insert; lia); reflexivity
         | rewrite list_lookup_insert_ne by (vm_compute; lia || discriminate) ].
Qed.

Lemma standard_button_events_values dev b time seq :
  standard_button_events dev b time seq
  = (fun i =>
       {| ev_index :=
            object_index dev (Z.lor DIDFT_BUTTON (DIDFT_MAKEINSTANCE (standard_slot i)));
          ev_data := if Z.testbit b i then 0x80 else 0x00;
          ev_time := time; ev_seq := seq |}) <$> seqZ 0 12.
Proof.
  unfold standard_button_events, button_event. rewrite seqZ_0_12.
  cbn [fmap list_fmap]. rewrite !button_value_testbit by lia. reflexivity.
Qed.

(** C4: in the standard variant, when the button bitmask differs from the
    stored one, the slot of each of the bits 0..11 receives 0x80 if the bit is
    set and 0x00 otherwise, and the call queues, between the stick events and
    the hat event, exactly the 12 button events, one for each slot; the bits
    IDX_BUTTON_A, B, X, Y, L1, R1, L2, R2, SELECT, START, L3, R3 (positions
    0, 1, 2, 3, 4, 5, 10, 11, 6, 7, 8, 9) go to the slots
    1, 2, 0, 3, 4, 5, 6, 7, 8, 9, 10, 11, a permutation of 0..11. *)
Theorem standard_buttons_remap g dev new time :
  mapper_standard g = true ->
  buttons new <> buttons (state dev) ->
  length (rgbButtons (device_state dev)) = 32%nat ->
  (forall i, 0 <= i < 12 ->
     rgbButtons (device_state (fst (gamepad_handle_input g dev new time)))
       !! Z.to_nat (standard_slot i)
     = Some (if Z.testbit (buttons new) i then 0x80 else 0x00))
  /\ snd (gamepad_handle_input g dev new time)
     = stick_events dev 2 3 (state dev) new time (evsequence dev)
       ++ ((fun i =>
              {| ev_index :=
                   object_index dev
                     (Z.lor DIDFT_BUTTON (DIDFT_MAKEINSTANCE (standard_slot i)));
                 ev_data := if Z.testbit (buttons new) i then 0x80 else 0x00;
                 ev_time := time; ev_seq := evsequence dev |}) <$> seqZ 0 12)
       ++ hat_events dev (state dev) new time (evsequence dev)
  /\ [IDX_BUTTON_A; IDX_BUTTON_B; IDX_BUTTON_X; IDX_BUTTON_Y;
      IDX_BUTTON_L1; IDX_BUTTON_R1; IDX_BUTTON_L2; IDX_BUTTON_R2;
      IDX_BUTTON_SELECT; IDX_BUTTON_START; IDX_BUTTON_L3; IDX_BUTTON_R3]
     = [0; 1; 2; 3; 4; 5; 10; 11; 6; 7; 8; 9]
  /\ standard_slot <$> [IDX_BUTTON_A; IDX_BUTTON_B; IDX_BUTTON_X; IDX_BUTTON_Y;
                        IDX_BUTTON_L1; IDX_BUTTON_R1; IDX_BUTTON_L2; IDX_BUTTON_R2;
                        IDX_BUTTON_SELECT; IDX_BUTTON_START; IDX_BUTTON_L3; IDX_BUTTON_R3]
     = [1; 2; 0; 3; 4; 5; 6; 7; 8; 9; 10; 11]
  /\ standard_slot <$> seqZ 0 12 ≡ₚ seqZ 0 12.
Proof.
  intros Hs Hb Hlen. split; [|split; [|split; [reflexivity|split]]].
  - intros i Hi. unfold gamepad_handle_input. cbn [fst device_state].
    rewrite (standard_run g dev new time Hs).
    rewrite handle_standard_rgbButtons by exact Hb.
    rewrite standard_button_loop_slots by assumption.
    rewrite button_value_testbit by lia. reflexivity.
  - rewrite (standard_events_of_call g dev new time Hs). unfold standard_events.
    rewrite (neqb_true _ _ Hb), standard_button_events_values. reflexivity.
  - reflexivity.
  - apply (bool_decide_unpack _). vm_compute. exact I.
Qed.

Lemma standard_buttons_remap_witness :
  rgbButtons (device_state (fst (gamepad_handle_input standard_globals
                                   (fresh_device (input_type standard_globals)) press_A 0)))
    !! Z.to_nat (standard_slot IDX_BUTTON_A)
  = Some (if Z.testbit (buttons press_A) IDX_BUTTON_A then 0x80 else 0x00).
Proof.
  apply (standard_buttons_remap standard_globals
           (fresh_device (input_type standard_globals)) press_A 0);
    [reflexivity | discriminate | reflexivity | unfold IDX_BUTTON_A; lia].
Defined.

(** ** The poll read *)

(** C6, as stated, fails: the received length is not examined.  A 19-octet
    datagram (not the expected 64) with code 9, sub-code 1 and the connected
    id is decoded and mapped: the stored sample becomes [press_A], slot 1 of
    rgbButtons becomes 0x80 and 12 events are queued. *)
Lemma short_datagram_is_mapped :
  length (GET_GAMEPAD_STATE_octets 1 press_A) = 19%nat
  /\ connected_gamepad_id standard_globals = 1
  /\ state (snd (fst (gamepad_read standard_globals
                        (datagram (GET_GAMEPAD_STATE_octets 1 press_A)) stale_buffer 0
                        (fresh_device (input_type standard_globals))))) = press_A
  /\ state (fresh_device (input_type standard_globals)) <> press_A
  /\ rgbButtons (device_state
                   (snd (fst (gamepad_read standard_globals
                                (datagram (GET_GAMEPAD_STATE_octets 1 press_A))
                                stale_buffer 0
                                (fresh_device (input_type standard_globals))))))
       !! 1%nat = Some 0x80
  /\ length (snd (gamepad_read standard_globals
                    (datagram (GET_GAMEPAD_STATE_octets 1 press_A)) stale_buffer 0
                    (fresh_device (input_type standard_globals)))) = 12%nat.
Proof. repeat split; try (vm_compute; reflexivity). discriminate. Qed.

(** C6, amended: when the socket is invalid, or recvfrom fails, or the
    received buffer's code octet is not GET_GAMEPAD_STATE (9), or its second
    octet is not 1, or its embedded id is not connected_gamepad_id, gamepad_read
    returns DI_OK with the device as it was (calibrated state, stored sample
    and sequence counter unchanged) and no event.  The received length plays
    no part. *)
Theorem gamepad_read_drops g inc buffer time dev :
  server_sock g = false
  \/ recvfrom inc buffer = None
  \/ (exists res received,
        recvfrom inc buffer = Some (res, received)
        /\ (char_at received 0 <> REQUEST_CODE_GET_GAMEPAD_STATE
            \/ char_at received 1 <> 1
            \/ int_at received 2 <> connected_gamepad_id g)) ->
  gamepad_read g inc buffer time dev = (DI_OK, dev, []).
Proof.
  intros H. unfold gamepad_read.
  destruct (server_sock g); [|reflexivity]. cbn [negb].
  destruct H as [H | [H | (res & received & H & Hbad)]]; [discriminate| |].
  - rewrite H. reflexivity.
  - rewrite H.
    destruct (Z.eqb_spec (char_at received 0) REQUEST_CODE_GET_GAMEPAD_STATE) as [E0|];
      [|reflexivity].
    destruct (Z.eqb_spec (char_at received 1) 1) as [E1|]; [|reflexivity].
    cbn [andb].
    destruct (neqb_spec (int_at received 2) (connected_gamepad_id g)) as [|E2];
      [reflexivity|].
    destruct Hbad as [Hb | [Hb | Hb]]; contradiction.
Qed.

Lemma gamepad_read_drops_witness :
  gamepad_read standard_globals
    (datagram (frame64 (GET_GAMEPAD_STATE_octets 2 press_A))) stale_buffer 0
    (fresh_device (input_type standard_globals))
  = (DI_OK, fresh_device (input_type standard_globals), []).
Proof.
  apply gamepad_read_drops. right. right.
  exists 64, (frame64 (GET_GAMEPAD_STATE_octets 2 press_A)).
  split; [reflexivity|]. right. right. discriminate.
Defined.

(** ** Discovery *)

(** C7, as stated, fails: gamepad_enum_device has a single failure outcome.
    A response with id 0, a response with id 1 whose flags (mapper-xinput and
    transport-xinput) lack the transport-is-dinput bit, and a failing sendto
    all give DIERR_INPUTLOST, so "not found" is not distinct from a transport
    failure. *)
Lemma not_found_is_not_distinct :
  fst (fst (gamepad_enum_device
              (answering (datagram (GET_GAMEPAD_response 0 0 0 [])))
              stale_buffer initial_globals)) = DIERR_INPUTLOST
  /\ Z.land (Z.lor FLAG_DINPUT_MAPPER_XINPUT FLAG_INPUT_TYPE_XINPUT)
            FLAG_INPUT_TYPE_DINPUT = 0
  /\ fst (fst (gamepad_enum_device
                 (answering
                    (datagram
                       (GET_GAMEPAD_response 1
                          (Z.lor FLAG_DINPUT_MAPPER_XINPUT FLAG_INPUT_TYPE_XINPUT) 0 [])))
                 stale_buffer initial_globals)) = DIERR_INPUTLOST
  /\ fst (fst (gamepad_enum_device send_fails stale_buffer initial_globals))
     = DIERR_INPUTLOST
  /\ ~ fst (fst (gamepad_enum_device
                   (answering (datagram (GET_GAMEPAD_response 0 0 0 [])))
                   stale_buffer initial_globals))
       <> fst (fst (gamepad_enum_device send_fails stale_buffer initial_globals)).
Proof.
  repeat split; try (vm_compute; reflexivity).
  intros H. apply H. vm_compute. reflexivity.
Qed.

Lemma create_server_socket_fails net g :
  WSAStartup_ok net = false \/ socket_ok net = false
  \/ setsockopt_reuseaddr_ok net = false \/ setsockopt_rcvtimeo_ok net = false
  \/ bind_ok net = false ->
  fst (create_server_socket net g) = false.
Proof.
  unfold create_server_socket. cbn [winsock_loaded set_winsock_loaded server_sock
                                     set_server_sock].
  destruct (WSAStartup_ok net), (socket_ok net), (setsockopt_reuseaddr_ok net),
    (setsockopt_rcvtimeo_ok net), (bind_ok net); cbn; intuition discriminate.
Qed.

Lemma enum_device_needs_socket net buffer g :
  fst (create_server_socket net g) = false ->
  fst (fst (gamepad_enum_device net buffer g)) = DIERR_INPUTLOST.
Proof.
  unfold gamepad_enum_device. destruct (create_server_socket net g) as [created g'].
  cbn [fst]. intros ->. reflexivity.
Qed.

Lemma enum_device_needs_request net buffer g :
  (forall g', fst (fst (get_gamepad_request false (Some 64%nat) net buffer g')) = false) ->
  fst (fst (gamepad_enum_device net buffer g)) = DIERR_INPUTLOST.
Proof.
  intros H. unfold gamepad_enum_device.
  destruct (create_server_socket net g) as [created g'].
  destruct created; [|reflexivity]. cbn [negb].
  specialize (H g').
  destruct (get_gamepad_request false (Some 64%nat) net buffer g') as [[found g''] name].
  cbn [fst] in H. rewrite H. reflexivity.
Qed.

(** C7, amended: a discovery response carrying gamepad id 0, or carrying a
    nonzero id with the transport-is-dinput bit of the flags octet unset, makes
    gamepad_enum_device fail with DIERR_INPUTLOST, and so does every transport
    failure (socket create, option, bind, send or receive error): the
    operation has one failure outcome and not-found is not told apart. *)
Theorem not_found_reported_as_input_lost net buffer g res received :
  recvfrom (response net) (GET_GAMEPAD_request false buffer) = Some (res, received) ->
  int_at received 1 = 0
  \/ Z.land (char_at received 5) FLAG_INPUT_TYPE_DINPUT = 0 ->
  fst (fst (gamepad_enum_device net buffer g)) = DIERR_INPUTLOST
  /\ (forall net', transport_failure net' ->
                   fst (fst (gamepad_enum_device net' buffer g)) = DIERR_INPUTLOST).
Proof.
  intros Hrecv Hbad. split.
  - apply enum_device_needs_request. intros g'. unfold get_gamepad_request.
    destruct (sendto_ok net); [|reflexivity]. cbn [negb]. rewrite Hrecv.
    destruct (char_at received 0 !=? REQUEST_CODE_GET_GAMEPAD); [reflexivity|].
    destruct (Z.eqb_spec (int_at received 1) 0) as [|Hid]; [reflexivity|].
    destruct Hbad as [Hbad|Hbad]; [contradiction|].
    cbn [input_type set_input_type]. unfold nonzero. rewrite Hbad. reflexivity.
  - intros net' Hf. unfold transport_failure in Hf.
    destruct Hf as [Hf|[Hf|[Hf|[Hf|[Hf|[Hf|Hf]]]]]];
      try (apply enum_device_needs_socket, create_server_socket_fails; tauto).
    + apply enum_device_needs_request. intros g'. unfold get_gamepad_request.
      rewrite Hf. reflexivity.
    + apply enum_device_needs_request. intros g'. unfold get_gamepad_request.
      rewrite Hf. destruct (sendto_ok net'); reflexivity.
Qed.

Lemma not_found_reported_as_input_lost_witness :
  fst (fst (gamepad_enum_device
              (answering
                 (datagram
                    (GET_GAMEPAD_response 1
                       (Z.lor FLAG_DINPUT_MAPPER_XINPUT FLAG_INPUT_TYPE_XINPUT) 0 [])))
              stale_buffer initial_globals)) = DIERR_INPUTLOST.
Proof.
  refine (proj1 (not_found_reported_as_input_lost
                   (answering
                      (datagram
                         (GET_GAMEPAD_response 1
                            (Z.lor FLAG_DINPUT_MAPPER_XINPUT FLAG_INPUT_TYPE_XINPUT) 0 [])))
                   stale_buffer initial_globals 64
                   (GET_GAMEPAD_response 1
                      (Z.lor FLAG_DINPUT_MAPPER_XINPUT FLAG_INPUT_TYPE_XINPUT) 0 [])
                   _ _));
    [reflexivity | right; reflexivity].
Defined.

(** C9 fails on the code: get_gamepad_request copies name_len octets
    whatever the size of the destination.  For a response with id 1, the
    transport-is-dinput bit set and name_len = 100, discovery succeeds and the
    copy asks for 100 octets plus the terminator, beyond the 64 octets of
    gamepad_name (and beyond the 54 octets the response holds after offset
    10). *)
Lemma long_name_overruns_gamepad_name :
  gamepad_enum_device
    (answering
       (datagram
          (GET_GAMEPAD_response 1 (Z.lor FLAG_DINPUT_MAPPER_XINPUT FLAG_INPUT_TYPE_DINPUT)
             100 (replicate 54 65))))
    stale_buffer initial_globals
  = (DI_OK,
     {| server_sock := true; winsock_loaded := true; connected_gamepad_id := 1;
        input_type := Z.lor FLAG_DINPUT_MAPPER_XINPUT FLAG_INPUT_TYPE_DINPUT |},
     overrun 100)
  /\ 64 < name_octets_written (overrun 100).
Proof. split; [vm_compute; reflexivity | reflexivity]. Qed.

(** ** Further properties *)

(** The calibration scenario: with the default logical and physical ranges,
    deadzone 1000 and saturation 9000, the raw minimum -32768 is clamped to
    range_min and the raw maximum to range_max. *)
Theorem scenario_extremes_clamp :
  scale_axis_value (-32768) calibrated_axis = 0
  /\ scale_axis_value 32767 calibrated_axis = 65535.
Proof. split; reflexivity. Qed.

(** X2: on the logical range that init_object_properties installs, any
    0 <= deadzone < saturation <= 10000 gives a saturation edge strictly beyond
    the deadzone edge on both halves, whatever the physical range. *)
Theorem default_logical_range_edges_ordered p :
  logical_min p = -32768 -> logical_max p = 32767 ->
  0 <= deadzone p -> deadzone p < saturation p -> saturation p <= 10000 ->
  saturation_edge_neg p < deadzone_edge_neg p
  /\ deadzone_edge_pos p < saturation_edge_pos p.
Proof.
  intros Hlo Hhi Hd Hds Hs.
  unfold saturation_edge_neg, deadzone_edge_neg, deadzone_edge_pos, saturation_edge_pos,
    log_center. rewrite Hlo, Hhi.
  change (to_LONG (-32768 - _)) with (-32767). change (to_LONG (32767 - _)) with 32768.
  split.
  - unfold MulDiv, INT_MAX. change (10000 =? 0) with false.
    change (10000 <? 0) with false. cbv iota zeta.
    change (-32767 <? 0) with true. change (0 <=? -32767) with false.
    change (Z.quot 10000 2) with 5000. cbn [andb orb].
    destruct (Z.ltb_spec (deadzone p) 0), (Z.ltb_spec (saturation p) 0); try lia.
    cbn [andb orb].
    repeat match goal with
           | |- context [?a <? ?b] => destruct (Z.ltb_spec a b)
           end; cbn [andb orb]; Z.to_euclidean_division_equations; lia.
  - rewrite !MulDiv_nonneg; unfold INT_MAX; try lia;
      Z.to_euclidean_division_equations; lia.
Qed.

Lemma default_logical_range_edges_ordered_witness :
  saturation_edge_neg calibrated_axis < deadzone_edge_neg calibrated_axis
  /\ deadzone_edge_pos calibrated_axis < saturation_edge_pos calibrated_axis.
Proof.
  apply (default_logical_range_edges_ordered calibrated_axis);
    first [reflexivity | discriminate].
Defined.

Lemma handle_standard_same dev time seq c :
  handle_standard dev (sample c) time seq c = c.
Proof.
  unfold handle_standard, axis_block, buttons_block, pov_block. cbv zeta.
  repeat (rewrite (changed_false _ _ c) by apply neqb_refl). reflexivity.
Qed.

Lemma handle_xinput_same dev time seq c :
  handle_xinput dev (sample c) time seq c = c.
Proof.
  unfold handle_xinput, axis_block, trigger_block, buttons_block, pov_block. cbv zeta.
  repeat (rewrite (changed_false _ _ c) by (rewrite ?neqb_refl; reflexivity)).
  reflexivity.
Qed.

(** X3, strict change detection: a sample identical to the stored one leaves the
    calibrated snapshot, the stored sample and the event handle as they are;
    only the sequence counter moves. *)
Theorem identical_sample_changes_only_counter g dev time :
  gamepad_handle_input g dev (state dev) time
  = ({| object_index := object_index dev;
        object_properties_at := object_properties_at dev;
        device_state := device_state dev;
        evsequence := to_DWORD (evsequence dev + 1);
        hEvent := hEvent dev;
        hEvent_set := hEvent_set dev;
        state := state dev |}, []).
Proof.
  unfold gamepad_handle_input.
  replace (run_input g dev (state dev) time)
    with {| sample := state dev; joystate := device_state dev;
            notify := false; queued := [] |}; [reflexivity|].
  unfold run_input.
  destruct (mapper_standard g);
    [symmetry; apply (handle_standard_same dev time (evsequence dev)
                        {| sample := state dev; joystate := device_state dev;
                           notify := false; queued := [] |})|].
  destruct (mapper_xinput g); [|reflexivity].
  symmetry. apply (handle_xinput_same dev time (evsequence dev)
                     {| sample := state dev; joystate := device_state dev;
                        notify := false; queued := [] |}).
Qed.

(** *** Decoding a live-state push *)

Lemma int_octets_decoded z a b c d :
  is_LONG z ->
  a = z mod 256 -> b = (z / 256) mod 256 -> c = (z / 65536) mod 256 ->
  d = (z / 16777216) mod 256 ->
  to_LONG (to_uchar a + 256 * to_uchar b + 65536 * to_uchar c + 16777216 * to_uchar d) = z.
Proof.
  unfold is_LONG, INT_MIN, INT_MAX, to_LONG, to_uchar. intros Hz -> -> -> ->.
  Z.to_euclidean_division_equations. lia.
Qed.

Lemma short_octets_decoded z a b :
  -32768 <= z <= 32767 -> a = z mod 256 -> b = (z / 256) mod 256 ->
  to_short (to_uchar a + 256 * to_uchar b) = z.
Proof.
  unfold to_short, to_uchar. intros Hz -> ->.
  Z.to_euclidean_division_equations. lia.
Qed.

Lemma char_octet_decoded z : -128 <= z <= 127 -> to_char (to_uchar (z mod 256)) = z.
Proof. unfold to_char, to_uchar. intros Hz. Z.to_euclidean_division_equations. lia. Qed.

Lemma uchar_octet_decoded z : 0 <= z <= 255 -> to_uchar (z mod 256) = z.
Proof. unfold to_uchar. intros Hz. Z.to_euclidean_division_equations. lia. Qed.

(** X4: a 64-octet GET_GAMEPAD_STATE push that carries the connected id and a
    sample whose fields are in range is decoded to that sample and handed to
    gamepad_handle_input, whatever the buffer held before. *)
Theorem state_push_decoded g s buffer time dev :
  server_sock g = true ->
  is_LONG (connected_gamepad_id g) ->
  sample_in_range s ->
  gamepad_read g
    (datagram (frame64 (GET_GAMEPAD_STATE_octets (connected_gamepad_id g) s)))
    buffer time dev
  = (DI_OK, fst (gamepad_handle_input g dev s time),
     snd (gamepad_handle_input g dev s time)).
Proof.
  intros Hsock Hid (Hb & Hd & Hlx & Hly & Hrx & Hry & Hlz & Hrz).
  unfold gamepad_read. rewrite Hsock. cbn [negb].
  unfold recvfrom, frame64, GET_GAMEPAD_STATE_octets, int_octets, short_octets.
  cbn [app take replicate length Nat.leb BUFFER_SIZE drop].
  unfold char_at, uchar_at, short_at, int_at, octet.
  cbn [lookup list_lookup default Nat.add]. unfold id.
  change (to_char (to_uchar REQUEST_CODE_GET_GAMEPAD_STATE)
          =? REQUEST_CODE_GET_GAMEPAD_STATE) with true.
  change (to_char (to_uchar 1) =? 1) with true. cbn [andb].
  rewrite (int_octets_decoded (connected_gamepad_id g)) by (assumption || reflexivity).
  rewrite neqb_refl.
  rewrite (short_octets_decoded (buttons s)) by (assumption || reflexivity).
  rewrite (short_octets_decoded (thumb_lx s)) by (assumption || reflexivity).
  rewrite (short_octets_decoded (thumb_ly s)) by (assumption || reflexivity).
  rewrite (short_octets_decoded (thumb_rx s)) by (assumption || reflexivity).
  rewrite (short_octets_decoded (thumb_ry s)) by (assumption || reflexivity).
  rewrite (char_octet_decoded (dpad s)) by assumption.
  rewrite (uchar_octet_decoded (thumb_lz s)), (uchar_octet_decoded (thumb_rz s))
    by assumption.
  destruct s. reflexivity.
Qed.

Lemma state_push_decoded_witness :
  gamepad_read standard_globals
    (datagram (frame64 (GET_GAMEPAD_STATE_octets 1 press_A))) stale_buffer 0
    (fresh_device (input_type standard_globals))
  = (DI_OK,
     fst (gamepad_handle_input standard_globals
            (fresh_device (input_type standard_globals)) press_A 0),
     snd (gamepad_handle_input standard_globals
            (fresh_device (input_type standard_globals)) press_A 0)).
Proof.
  apply (state_push_decoded standard_globals press_A stale_buffer 0
           (fresh_device (input_type standard_globals)));
    [reflexivity | vm_compute; split; discriminate
    | vm_compute; repeat split; discriminate].
Defined.

(** *** A successful discovery *)



(** ** The wake signal, untouched state and resubmission *)

Lemma changed_notify test body c :
  notify (changed test body c) = notify c || test c.
Proof. unfold changed. destruct (test c); cbn; [apply eq_sym, orb_true_r | apply eq_sym, orb_false_r]. Qed.

Lemma axis_block_notify dev time seq raw stored_raw store instance set_axis c :
  notify (axis_block dev raw stored_raw store instance set_axis time seq c)
  = notify c || (raw !=? stored_raw (sample c)).
Proof. unfold axis_block. apply changed_notify. Qed.

Lemma buttons_block_notify time seq loop nb c :
  notify (buttons_block loop nb time seq c) = notify c || (nb !=? buttons (sample c)).
Proof. unfold buttons_block. apply changed_notify. Qed.

Lemma pov_block_notify dev time seq nd c :
  notify (pov_block dev nd time seq c) = notify c || (nd !=? dpad (sample c)).
Proof. unfold pov_block. apply changed_notify. Qed.

Lemma trigger_block_notify dev time seq lz rz c :
  notify (trigger_block dev lz rz time seq c)
  = notify c || ((lz !=? thumb_lz (sample c)) || (rz !=? thumb_rz (sample c))).
Proof. unfold trigger_block. apply changed_notify. Qed.

Lemma handle_standard_notify dev new time seq c :
  notify (handle_standard dev new time seq c)
  = notify c
    || (thumb_lx new !=? thumb_lx (sample c)) || (thumb_ly new !=? thumb_ly (sample c))
    || (thumb_rx new !=? thumb_rx (sample c)) || (thumb_ry new !=? thumb_ry (sample c))
    || (buttons new !=? buttons (sample c)) || (dpad new !=? dpad (sample c)).
Proof.
  unfold handle_standard. cbv zeta.
  rewrite pov_block_notify, buttons_block_notify, !axis_block_notify.
  peel_sample. reflexivity.
Qed.

Lemma handle_xinput_notify dev new time seq c :
  notify (handle_xinput dev new time seq c)
  = notify c
    || (thumb_lx new !=? thumb_lx (sample c)) || (thumb_ly new !=? thumb_ly (sample c))
    || (thumb_rx new !=? thumb_rx (sample c)) || (thumb_ry new !=? thumb_ry (sample c))
    || ((thumb_lz new !=? thumb_lz (sample c)) || (thumb_rz new !=? thumb_rz (sample c)))
    || (buttons new !=? buttons (sample c)) || (dpad new !=? dpad (sample c)).
Proof.
  unfold handle_xinput. cbv zeta.
  rewrite pov_block_notify, buttons_block_notify, trigger_block_notify, !axis_block_notify.
  peel_sample. reflexivity.
Qed.

(** X7: the event handle is set by a call exactly when the call queued at least
    one event and the handle exists; a handle that was set stays set. *)
Theorem wake_signal_iff_events g dev new time :
  hEvent_set (fst (gamepad_handle_input g dev new time))
  = hEvent_set dev
    || (hEvent dev && nonempty (snd (gamepad_handle_input g dev new time))).
Proof.
  unfold gamepad_handle_input. cbn [fst snd hEvent_set].
  assert (Hn : notify (run_input g dev new time)
               = nonempty (queued (run_input g dev new time))).
  { rewrite run_input_queued. unfold run_input.
    destruct (mapper_standard g); [|destruct (mapper_xinput g); [|reflexivity]].
    - rewrite handle_standard_notify. cbn [notify sample].
      unfold standard_events, stick_events, hat_events, standard_button_events.
      rewrite seqZ_0_12.
      destruct (thumb_lx new !=? thumb_lx (state dev)),
        (thumb_ly new !=? thumb_ly (state dev)),
        (thumb_rx new !=? thumb_rx (state dev)),
        (thumb_ry new !=? thumb_ry (state dev)),
        (buttons new !=? buttons (state dev)),
        (dpad new !=? dpad (state dev)); reflexivity.
    - rewrite handle_xinput_notify. cbn [notify sample].
      unfold xinput_events, stick_events, hat_events, xinput_button_events.
      rewrite seqZ_0_10.
      destruct (thumb_lx new !=? thumb_lx (state dev)),
        (thumb_ly new !=? thumb_ly (state dev)),
        (thumb_rx new !=? thumb_rx (state dev)),
        (thumb_ry new !=? thumb_ry (state dev)),
        (thumb_lz new !=? thumb_lz (state dev)),
        (thumb_rz new !=? thumb_rz (state dev)),
        (buttons new !=? buttons (state dev)),
        (dpad new !=? dpad (state dev)); reflexivity. }
  rewrite Hn.
  destruct (nonempty (queued (run_input g dev new time))), (hEvent dev),
    (hEvent_set dev); reflexivity.
Qed.

Lemma axis_block_same dev time seq raw stored_raw store instance set_axis c :
  raw = stored_raw (sample c) ->
  axis_block dev raw stored_raw store instance set_axis time seq c = c.
Proof. intros H. unfold axis_block. apply changed_false. rewrite H. apply neqb_refl. Qed.

Lemma buttons_block_same time seq loop nb c :
  nb = buttons (sample c) -> buttons_block loop nb time seq c = c.
Proof. intros H. unfold buttons_block. apply changed_false. rewrite H. apply neqb_refl. Qed.

Lemma pov_block_same dev time seq nd c :
  nd = dpad (sample c) -> pov_block dev nd time seq c = c.
Proof. intros H. unfold pov_block. apply changed_false. rewrite H. apply neqb_refl. Qed.

Lemma trigger_block_same dev time seq lz rz c :
  lz = thumb_lz (sample c) -> rz = thumb_rz (sample c) ->
  trigger_block dev lz rz time seq c = c.
Proof.
  intros Hl Hr. unfold trigger_block. apply changed_false.
  rewrite Hl, Hr, !neqb_refl. reflexivity.
Qed.

(** Remove the blocks whose raw field is known to equal the stored one. *)
Ltac drop_same_block :=
  match goal with
  | |- context [axis_block ?d ?raw ?g ?st ?i ?sa ?t ?q ?c] =>
      rewrite (axis_block_same d t q raw g st i sa c)
        by (peel_sample; cbn [sample]; congruence)
  | |- context [buttons_block ?loop ?nb ?t ?q ?c] =>
      rewrite (buttons_block_same t q loop nb c)
        by (peel_sample; cbn [sample]; congruence)
  | |- context [pov_block ?d ?nd ?t ?q ?c] =>
      rewrite (pov_block_same d t q nd c) by (peel_sample; cbn [sample]; congruence)
  | |- context [trigger_block ?d ?lz ?rz ?t ?q ?c] =>
      rewrite (trigger_block_same d t q lz rz c)
        by (peel_sample; cbn [sample]; congruence)
  end.

Ltac settle_joystate := repeat (peel_joystate; try drop_same_block); cbn [joystate sample].

(** X8: a raw field equal to the stored one leaves its part of the calibrated
    snapshot alone, in either variant: X, Y, the buttons and the hat, and per
    variant Z and Rz (standard) or Rx, Ry and the merged Z (Xbox-style).  The
    standard variant never writes Rx and Ry nor the stored triggers, the
    Xbox-style variant never writes Rz. *)
Theorem snapshot_follows_changed_fields g dev new time :
  (thumb_lx new = thumb_lx (state dev) ->
   lX (device_state (fst (gamepad_handle_input g dev new time))) = lX (device_state dev))
  /\ (thumb_ly new = thumb_ly (state dev) ->
      lY (device_state (fst (gamepad_handle_input g dev new time)))
      = lY (device_state dev))
  /\ (buttons new = buttons (state dev) ->
      rgbButtons (device_state (fst (gamepad_handle_input g dev new time)))
      = rgbButtons (device_state dev))
  /\ (dpad new = dpad (state dev) ->
      rgdwPOV (device_state (fst (gamepad_handle_input g dev new time)))
      = rgdwPOV (device_state dev))
  /\ (mapper_standard g = true ->
      (thumb_rx new = thumb_rx (state dev) ->
       lZ (device_state (fst (gamepad_handle_input g dev new time)))
       = lZ (device_state dev))
      /\ (thumb_ry new = thumb_ry (state dev) ->
          lRz (device_state (fst (gamepad_handle_input g dev new time)))
          = lRz (device_state dev))
      /\ lRx (device_state (fst (gamepad_handle_input g dev new time)))
         = lRx (device_state dev)
      /\ lRy (device_state (fst (gamepad_handle_input g dev new time)))
         = lRy (device_state dev)
      /\ thumb_lz (state (fst (gamepad_handle_input g dev new time)))
         = thumb_lz (state dev)
      /\ thumb_rz (state (fst (gamepad_handle_input g dev new time)))
         = thumb_rz (state dev))
  /\ (mapper_standard g = false ->
      (thumb_rx new = thumb_rx (state dev) ->
       lRx (device_state (fst (gamepad_handle_input g dev new time)))
       = lRx (device_state dev))
      /\ (thumb_ry new = thumb_ry (state dev) ->
          lRy (device_state (fst (gamepad_handle_input g dev new time)))
          = lRy (device_state dev))
      /\ (thumb_lz new = thumb_lz (state dev) -> thumb_rz new = thumb_rz (state dev) ->
          lZ (device_state (fst (gamepad_handle_input g dev new time)))
          = lZ (device_state dev))
      /\ lRz (device_state (fst (gamepad_handle_input g dev new time)))
         = lRz (device_state dev)).
Proof.
  unfold gamepad_handle_input, run_input. cbn [fst device_state state].
  destruct (mapper_standard g); [|destruct (mapper_xinput g)];
    unfold handle_standard, handle_xinput; cbv zeta;
    repeat match goal with
           | |- _ /\ _ => split
           | |- _ -> _ => intro
           end;
    try discriminate; try reflexivity;
    try (settle_joystate; reflexivity);
    peel_sample; reflexivity.
Qed.

Lemma handle_standard_sample_field dev new time seq c f :
  f <> F_lz -> f <> F_rz ->
  get f (sample (handle_standard dev new time seq c)) = get f new.
Proof.
  intros Hl Hr. destruct f; try contradiction; cbn [get];
    unfold handle_standard; cbv zeta; peel_sample;
    first [ apply pov_block_stored
          | apply buttons_block_stored; intros; reflexivity
          | apply axis_block_stored; intros; reflexivity ].
Qed.

Lemma handle_standard_settled dev new time seq c :
  (forall f, f <> F_lz -> f <> F_rz -> get f (sample c) = get f new) ->
  handle_standard dev new time seq c = c.
Proof.
  intros H.
  pose proof (H F_lx ltac:(discriminate) ltac:(discriminate)) as E1.
  pose proof (H F_ly ltac:(discriminate) ltac:(discriminate)) as E2.
  pose proof (H F_rx ltac:(discriminate) ltac:(discriminate)) as E3.
  pose proof (H F_ry ltac:(discriminate) ltac:(discriminate)) as E4.
  pose proof (H F_buttons ltac:(discriminate) ltac:(discriminate)) as E5.
  pose proof (H F_dpad ltac:(discriminate) ltac:(discriminate)) as E6.
  cbn [get] in *. unfold handle_standard. cbv zeta.
  rewrite (axis_block_same dev time seq (thumb_lx new)) by congruence.
  rewrite (axis_block_same dev time seq (thumb_ly new)) by congruence.
  rewrite (axis_block_same dev time seq (thumb_rx new)) by congruence.
  rewrite (axis_block_same dev time seq (thumb_ry new)) by congruence.
  rewrite buttons_block_same by congruence.
  apply pov_block_same. congruence.
Qed.

Lemma handle_xinput_settled dev new time seq c :
  (forall f, get f (sample c) = get f new) ->
  handle_xinput dev new time seq c = c.
Proof.
  intros H.
  pose proof (H F_lx) as E1. pose proof (H F_ly) as E2.
  pose proof (H F_rx) as E3. pose proof (H F_ry) as E4.
  pose proof (H F_buttons) as E5. pose proof (H F_dpad) as E6.
  pose proof (H F_lz) as E7. pose proof (H F_rz) as E8.
  cbn [get] in *. unfold handle_xinput. cbv zeta.
  rewrite (axis_block_same dev time seq (thumb_lx new)) by congruence.
  rewrite (axis_block_same dev time seq (thumb_ly new)) by congruence.
  rewrite (axis_block_same dev time seq (thumb_rx new)) by congruence.
  rewrite (axis_block_same dev time seq (thumb_ry new)) by congruence.
  rewrite trigger_block_same by congruence.
  rewrite buttons_block_same by congruence.
  apply pov_block_same. congruence.
Qed.

(** X9: submitting the same sample a second time, right after the first call,
    queues no event and changes nothing but the sequence counter, whatever
    the first call found changed and whichever variant is active (also in the
    standard variant, which does not store the triggers). *)
Theorem resubmitted_sample_is_silent g dev new time time' :
  gamepad_handle_input g (fst (gamepad_handle_input g dev new time)) new time'
  = ({| object_index := object_index dev;
        object_properties_at := object_properties_at dev;
        device_state := device_state (fst (gamepad_handle_input g dev new time));
        evsequence := to_DWORD (to_DWORD (evsequence dev + 1) + 1);
        hEvent := hEvent dev;
        hEvent_set := hEvent_set (fst (gamepad_handle_input g dev new time));
        state := state (fst (gamepad_handle_input g dev new time)) |}, []).
Proof.
  set (dev1 := fst (gamepad_handle_input g dev new time)).
  assert (Hrun : run_input g dev1 new time'
                 = {| sample := state dev1; joystate := device_state dev1;
                      notify := false; queued := [] |}).
  { unfold run_input.
    destruct (mapper_standard g) eqn:Hs; [|destruct (mapper_xinput g) eqn:Hx].
    - apply handle_standard_settled. intros f Hl Hr. cbn [sample].
      unfold dev1, gamepad_handle_input. cbn [fst state].
      rewrite (standard_run g dev new time Hs).
      apply handle_standard_sample_field; assumption.
    - apply handle_xinput_settled. intros f. cbn [sample].
      unfold dev1, gamepad_handle_input. cbn [fst state].
      rewrite (xinput_run g dev new time Hs Hx).
      apply handle_xinput_sample_field.
    - reflexivity. }
  unfold gamepad_handle_input at 1. rewrite Hrun. reflexivity.
Qed.

(** ** The socket and the discovery request *)

(** X10: create_server_socket in closed form: the result is TRUE exactly when
    WSAStartup, socket, both setsockopt calls and bind all succeed.  Whatever
    the globals held before, afterwards winsock_loaded tells whether
    WSAStartup succeeded and the socket is open exactly when WSAStartup and
    socket succeeded, also when a later setsockopt or bind failed and the
    result is FALSE; the connected id and the flags are not touched. *)
Theorem create_server_socket_outcome net g :
  create_server_socket net g
  = (WSAStartup_ok net && socket_ok net && setsockopt_reuseaddr_ok net
     && setsockopt_rcvtimeo_ok net && bind_ok net,
     {| server_sock := WSAStartup_ok net && socket_ok net;
        winsock_loaded := WSAStartup_ok net;
        connected_gamepad_id := connected_gamepad_id g;
        input_type := input_type g |}).
Proof.
  unfold create_server_socket, close_server_socket.
  destruct g as [s w i t], net as [a b c d e f r].
  destruct s, w, a, b, c, d, e; reflexivity.
Qed.

(** X11: what get_gamepad_request guarantees on every path: it never opens or
    closes the socket; it answers TRUE only with a nonzero connected id and
    the transport-is-dinput bit set in the recorded flags; it writes to
    gamepad_name only when it answers TRUE and the pointer is not NULL; and it
    overwrites the flags only together with a nonzero id. *)
Theorem get_gamepad_request_postconditions notify gamepad_name net buffer g :
  server_sock (snd (fst (get_gamepad_request notify gamepad_name net buffer g)))
  = server_sock g
  /\ winsock_loaded (snd (fst (get_gamepad_request notify gamepad_name net buffer g)))
     = winsock_loaded g
  /\ (fst (fst (get_gamepad_request notify gamepad_name net buffer g)) = true ->
      connected_gamepad_id
        (snd (fst (get_gamepad_request notify gamepad_name net buffer g))) <> 0
      /\ Z.land (input_type
                   (snd (fst (get_gamepad_request notify gamepad_name net buffer g))))
                FLAG_INPUT_TYPE_DINPUT <> 0)
  /\ (fst (fst (get_gamepad_request notify gamepad_name net buffer g)) = false
      \/ gamepad_name = None ->
      snd (get_gamepad_request notify gamepad_name net buffer g) = untouched)
  /\ (input_type (snd (fst (get_gamepad_request notify gamepad_name net buffer g)))
      <> input_type g ->
      connected_gamepad_id
        (snd (fst (get_gamepad_request notify gamepad_name net buffer g))) <> 0).
Proof.
  unfold get_gamepad_request.
  destruct (sendto_ok net); cbn [negb];
    [|repeat split; cbn in *; intros; congruence].
  destruct (recvfrom (response net) (GET_GAMEPAD_request notify buffer))
    as [[res received]|];
    [|repeat split; cbn in *; intros; congruence].
  destruct (char_at received 0 !=? REQUEST_CODE_GET_GAMEPAD);
    [repeat split; cbn in *; intros; congruence|].
  destruct (Z.eqb_spec (int_at received 1) 0) as [Hz|Hz];
    [repeat split; cbn in *; intros; congruence|].
  cbn [input_type set_input_type set_connected_gamepad_id].
  unfold nonzero.
  destruct (Z.eqb_spec (Z.land (char_at received 5) FLAG_INPUT_TYPE_DINPUT) 0) as [Hf|Hf];
    cbn [negb].
  - repeat split; cbn in *; intros; congruence.
  - destruct gamepad_name; repeat split; cbn in *; intros;
      first [congruence | assumption | intuition congruence].
Qed.

(** X12: a controller that discovery rejects is recorded all the same: when every
    socket call succeeds and the response has code 8 and a nonzero id but the
    transport-is-dinput bit unset, gamepad_enum_device fails with
    DIERR_INPUTLOST and yet leaves the socket open, the response's id in
    connected_gamepad_id and its flags octet in input_type, so the mapper
    variant and the id gamepad_read filters on are those of the rejected
    controller. *)
Theorem rejected_controller_is_recorded net buffer g res received :
  WSAStartup_ok net = true -> socket_ok net = true ->
  setsockopt_reuseaddr_ok net = true -> setsockopt_rcvtimeo_ok net = true ->
  bind_ok net = true -> sendto_ok net = true ->
  recvfrom (response net) (GET_GAMEPAD_request false buffer) = Some (res, received) ->
  char_at received 0 = REQUEST_CODE_GET_GAMEPAD ->
  int_at received 1 <> 0 ->
  Z.land (char_at received 5) FLAG_INPUT_TYPE_DINPUT = 0 ->
  gamepad_enum_device net buffer g
  = (DIERR_INPUTLOST,
     {| server_sock := true; winsock_loaded := true;
        connected_gamepad_id := int_at received 1;
        input_type := char_at received 5 |},
     untouched).
Proof.
  intros H1 H2 H3 H4 H5 H6 Hrecv Hcode Hid Hflag.
  unfold gamepad_enum_device, create_server_socket, get_gamepad_request.
  cbn [winsock_loaded set_winsock_loaded server_sock set_server_sock].
  rewrite H1, H2, H3, H4, H5, H6. cbn [negb]. rewrite Hrecv, Hcode, neqb_refl.
  destruct (Z.eqb_spec (int_at received 1) 0) as [|_]; [contradiction|].
  cbn [input_type set_input_type]. unfold nonzero. rewrite Hflag. reflexivity.
Qed.

Lemma rejected_controller_is_recorded_witness :
  gamepad_enum_device
    (answering
       (datagram
          (GET_GAMEPAD_response 7 (Z.lor FLAG_DINPUT_MAPPER_STANDARD FLAG_INPUT_TYPE_XINPUT)
             0 [])))
    stale_buffer initial_globals
  = (DIERR_INPUTLOST,
     {| server_sock := true; winsock_loaded := true; connected_gamepad_id := 7;
        input_type := Z.lor FLAG_DINPUT_MAPPER_STANDARD FLAG_INPUT_TYPE_XINPUT |},
     untouched).
Proof.
  refine (rejected_controller_is_recorded
            (answering
               (datagram
                  (GET_GAMEPAD_response 7
                     (Z.lor FLAG_DINPUT_MAPPER_STANDARD FLAG_INPUT_TYPE_XINPUT) 0 [])))
            stale_buffer initial_globals 64
            (GET_GAMEPAD_response 7
               (Z.lor FLAG_DINPUT_MAPPER_STANDARD FLAG_INPUT_TYPE_XINPUT) 0 [])
            _ _ _ _ _ _ _ _ _ _); first [reflexivity | discriminate].
Defined.

(** *** Round trip of the discovery response *)

Lemma close_server_socket_closed g :
  close_server_socket g
  = {| server_sock := false; winsock_loaded := false;
       connected_gamepad_id := connected_gamepad_id g; input_type := input_type g |}.
Proof. destruct g as [s w i t]. destruct s, w; reflexivity. Qed.

Lemma frame64_length data : length (frame64 data) = 64%nat.
Proof.
  unfold frame64. rewrite length_take, length_app, length_replicate. lia.
Qed.

Lemma padded_name_taken (name : list Z) (rest : list Z) :
  (length name <= 54)%nat ->
  take (length name) (take 54 (name ++ replicate 64 0) ++ rest) = name.
Proof.
  intros Hn. rewrite take_app_le by (rewrite length_take, length_app; lia).
  rewrite take_take, Nat.min_l by lia. apply take_app_length.
Qed.

(** X13: the discovery round trip: a GET_GAMEPAD response built from an id other
    than 0, a flags octet with the transport-is-dinput bit and a name of at
    most 54 octets, sent with its true length, makes gamepad_enum_device
    return DI_OK with exactly that id and those flags in the globals and
    exactly that name copied, whatever the buffer and the globals held before.
    54 octets is all a 64-octet frame holds after offset 10. *)
Theorem discovery_round_trip gamepad_id flags name buffer g :
  is_LONG gamepad_id -> gamepad_id <> 0 ->
  -128 <= flags <= 127 -> Z.land flags FLAG_INPUT_TYPE_DINPUT <> 0 ->
  (length name <= 54)%nat ->
  gamepad_enum_device
    (answering (datagram (GET_GAMEPAD_response gamepad_id flags (Z.of_nat (length name)) name)))
    buffer g
  = (DI_OK,
     {| server_sock := true; winsock_loaded := true;
        connected_gamepad_id := gamepad_id; input_type := flags |},
     stored name).
Proof.
  intros Hid Hnz Hflags Hbit Hlen.
  unfold gamepad_enum_device, create_server_socket, get_gamepad_request, answering.
  cbn [WSAStartup_ok socket_ok setsockopt_reuseaddr_ok setsockopt_rcvtimeo_ok bind_ok
       sendto_ok response winsock_loaded set_winsock_loaded server_sock set_server_sock
       negb].
  unfold recvfrom, GET_GAMEPAD_response. rewrite frame64_length.
  cbn [BUFFER_SIZE Nat.leb]. unfold frame64, int_octets.
  cbn [app take].
  set (rest := drop 64 (GET_GAMEPAD_request false buffer)).
  set (padded := take 54 (name ++ replicate 64 0)).
  unfold copy_name, char_at, int_at, octet.
  cbn [lookup list_lookup default Nat.add app drop]. unfold id.
  change (to_char (to_uchar REQUEST_CODE_GET_GAMEPAD) !=? REQUEST_CODE_GET_GAMEPAD)
    with false. cbv iota.
  rewrite (int_octets_decoded gamepad_id) by (assumption || reflexivity).
  rewrite (int_octets_decoded (Z.of_nat (length name)))
    by (first [reflexivity | unfold is_LONG, INT_MIN, INT_MAX; lia]).
  rewrite (char_octet_decoded flags) by assumption.
  destruct (Z.eqb_spec gamepad_id 0) as [|_]; [contradiction|].
  cbn [input_type set_input_type set_connected_gamepad_id connected_gamepad_id
       server_sock winsock_loaded].
  unfold nonzero.
  destruct (Z.eqb_spec (Z.land flags FLAG_INPUT_TYPE_DINPUT) 0) as [|_]; [contradiction|].
  cbn [negb].
  replace ((0 <=? Z.of_nat (length name))
           && (10 + Z.of_nat (length name) <=? Z.of_nat BUFFER_SIZE)
           && (Z.of_nat (length name) + 1 <=? Z.of_nat 64)) with true
    by (symmetry; unfold BUFFER_SIZE; rewrite !andb_true_iff, !Z.leb_le; lia).
  rewrite drop_0, Nat2Z.id. unfold padded.
  rewrite padded_name_taken by assumption.
  rewrite close_server_socket_closed. reflexivity.
Qed.

Lemma discovery_round_trip_witness :
  gamepad_enum_device
    (answering
       (datagram
          (GET_GAMEPAD_response 7 (Z.lor FLAG_DINPUT_MAPPER_STANDARD FLAG_INPUT_TYPE_DINPUT)
             (Z.of_nat (length [112; 97; 100])) [112; 97; 100])))
    stale_buffer initial_globals
  = (DI_OK,
     {| server_sock := true; winsock_loaded := true; connected_gamepad_id := 7;
        input_type := Z.lor FLAG_DINPUT_MAPPER_STANDARD FLAG_INPUT_TYPE_DINPUT |},
     stored [112; 97; 100]).
Proof.
  apply (discovery_round_trip 7 (Z.lor FLAG_DINPUT_MAPPER_STANDARD FLAG_INPUT_TYPE_DINPUT)
           [112; 97; 100] stale_buffer initial_globals);
    first [ discriminate
          | vm_compute; split; discriminate
          | vm_compute; lia ].
Defined.

(** *** Release and re-acquisition *)

Lemma get_gamepad_request_server_sock notify gamepad_name net buffer g :
  server_sock (snd (fst (get_gamepad_request notify gamepad_name net buffer g)))
  = server_sock g.
Proof.
  unfold get_gamepad_request.
  destruct (sendto_ok net); [|reflexivity]. cbn [negb].
  destruct (recvfrom (response net) (GET_GAMEPAD_request notify buffer))
    as [[res received]|]; [|reflexivity].
  destruct (char_at received 0 !=? REQUEST_CODE_GET_GAMEPAD); [reflexivity|].
  destruct (int_at received 1 =? 0); [reflexivity|].
  cbn [input_type set_input_type].
  destruct (negb (nonzero (Z.land (char_at received 5) FLAG_INPUT_TYPE_DINPUT)));
    [reflexivity|].
  destruct gamepad_name; reflexivity.
Qed.

(** X14: when gamepad_unacquire returns, it returns DI_OK with the socket closed
    and Winsock unloaded, but the connected id and the flags are kept as they
    were.  From then on gamepad_read delivers nothing, whatever arrives, and
    this stays so after gamepad_acquire: acquiring sends its request without
    creating a socket, so only the next gamepad_enum_device makes the device
    readable again. *)
Theorem released_device_reads_nothing read_event buffer g hr g1 sent :
  gamepad_unacquire read_event buffer g = Some (hr, g1, sent) ->
  hr = DI_OK
  /\ server_sock g1 = false /\ winsock_loaded g1 = false
  /\ connected_gamepad_id g1 = connected_gamepad_id g
  /\ input_type g1 = input_type g
  /\ (forall inc buffer' time dev,
        gamepad_read g1 inc buffer' time dev = (DI_OK, dev, []))
  /\ (forall net buffer' inc buffer'' time dev,
        gamepad_read (snd (fst (gamepad_acquire net buffer' g1))) inc buffer'' time dev
        = (DI_OK, dev, [])).
Proof.
  unfold gamepad_unacquire. destruct read_event; [|discriminate].
  rewrite close_server_socket_closed. intros [= <- <- <-].
  cbn [server_sock winsock_loaded connected_gamepad_id input_type].
  repeat split.
  intros net buffer' inc buffer'' time dev. unfold gamepad_read, gamepad_acquire.
  pose proof (get_gamepad_request_server_sock true None net buffer'
                {| server_sock := false; winsock_loaded := false;
                   connected_gamepad_id := connected_gamepad_id g;
                   input_type := input_type g |}) as Hs.
  destruct (get_gamepad_request true None net buffer' _) as [[found g2] name].
  cbn [fst snd] in *. rewrite Hs. reflexivity.
Qed.

Lemma released_device_reads_nothing_witness :
  gamepad_read
    (snd (fst (gamepad_acquire
                 (answering
                    (datagram
                       (GET_GAMEPAD_response 1
                          (Z.lor FLAG_DINPUT_MAPPER_STANDARD FLAG_INPUT_TYPE_DINPUT) 0 [])))
                 stale_buffer (close_server_socket standard_globals))))
    (datagram (frame64 (GET_GAMEPAD_STATE_octets 1 press_A))) stale_buffer 0
    (fresh_device (input_type standard_globals))
  = (DI_OK, fresh_device (input_type standard_globals), []).
Proof.
  apply (released_device_reads_nothing true stale_buffer standard_globals DI_OK
           (close_server_socket standard_globals) (release_gamepad_request stale_buffer)
           eq_refl).
Defined.

(** ** Range and monotonicity of the axis scaler *)

Section ScalerRange.

Local Ltac zdiv := Z.to_euclidean_division_equations; nia.

Local Ltac cmp_cases :=
  repeat match goal with
    | |- context [?a <? ?b] => destruct (Z.ltb_spec a b)
    | |- context [?a <=? ?b] => destruct (Z.leb_spec a b)
    | |- context [?a =? ?b] => destruct (Z.eqb_spec a b)
    end; cbn [andb orb negb].

Lemma scale_axis_value_halves v p :
  scale_axis_value v p
  = if shifted v p <=? 0
    then clamp_or_interpolate (shifted v p) (saturation_edge_neg p) (deadzone_edge_neg p)
           (range_min p) (phy_center p)
    else clamp_or_interpolate (shifted v p) (deadzone_edge_pos p) (saturation_edge_pos p)
           (phy_center p) (range_max p).
Proof.
  unfold scale_axis_value, clamp_or_interpolate. cbv zeta.
  destruct (shifted v p <=? 0); reflexivity.
Qed.

(** The center of an ordered range lies inside it, at most INT_MAX away from
    either bound. *)
Lemma center_between lo hi :
  - INT_MAX <= lo -> lo <= hi -> hi <= INT_MAX -> is_LONG (lo + hi) ->
  lo <= (if lo =? 0 then Z.shiftr hi 1 else round_half (to_LONG (lo + hi))) <= hi
  /\ (if lo =? 0 then Z.shiftr hi 1 else round_half (to_LONG (lo + hi))) - lo <= INT_MAX
  /\ hi - (if lo =? 0 then Z.shiftr hi 1 else round_half (to_LONG (lo + hi))) <= INT_MAX.
Proof.
  intros Hlo Hle Hhi Hsum.
  destruct (Z.eqb_spec lo 0) as [->|Hnz].
  - rewrite Z.shiftr_div_pow2 by lia. change (2 ^ 1) with 2.
    unfold INT_MAX in *. zdiv.
  - rewrite to_LONG_id by assumption.
    unfold round_half, is_LONG, INT_MIN, INT_MAX in *.
    destruct (Z.lt_total (lo + hi) 0) as [H|[H|H]].
    + rewrite Z.sgn_neg by lia. zdiv.
    + rewrite H. change (Z.quot (0 + Z.sgn 0) 2) with 0. lia.
    + rewrite Z.sgn_pos by lia. zdiv.
Qed.

Lemma MulDiv_10000_upper x d :
  0 <= x <= INT_MAX -> 0 <= d <= 10000 -> 0 <= MulDiv x d 10000 <= x.
Proof.
  intros Hx Hd. rewrite MulDiv_nonneg; unfold INT_MAX in *; try lia; zdiv.
Qed.

Lemma MulDiv_10000_lower x d :
  - INT_MAX <= x <= 0 -> 0 <= d <= 10000 -> x <= MulDiv x d 10000 <= 0.
Proof.
  intros Hx Hd. unfold MulDiv, INT_MAX in *.
  change (10000 =? 0) with false. change (10000 <? 0) with false. cbv iota.
  change (Z.quot 10000 2) with 5000.
  assert (Hm : x * 10000 <= x * d <= 0) by nia.
  set (m := x * d) in *.
  cmp_cases; cbn [andb orb] in *; try lia; Z.to_euclidean_division_equations; lia.
Qed.

Lemma interpolation_between v lo hi pmin pmax :
  lo < v -> v < hi -> hi - lo <= INT_MAX ->
  is_LONG pmin -> is_LONG pmax -> pmin <= pmax -> pmax - pmin <= INT_MAX ->
  to_LONG (pmin + MulDiv (to_LONG (v - lo)) (to_LONG (pmax - pmin)) (to_LONG (hi - lo)))
  = pmin + ((v - lo) * (pmax - pmin) + (hi - lo) / 2) / (hi - lo)
  /\ pmin <= pmin + ((v - lo) * (pmax - pmin) + (hi - lo) / 2) / (hi - lo) <= pmax.
Proof.
  intros Hlo Hhi Hspan Hmin Hmax Hle Hphy.
  assert (Hb : 0 <= ((v - lo) * (pmax - pmin) + (hi - lo) / 2) / (hi - lo)
               <= pmax - pmin).
  { split.
    - apply Z.div_pos; [|lia].
      assert (0 <= (v - lo) * (pmax - pmin)) by nia.
      assert (0 <= (hi - lo) / 2) by (apply Z.div_pos; lia). lia.
    - apply Z.lt_succ_r, Z.div_lt_upper_bound; [lia|].
      assert ((hi - lo) / 2 < hi - lo) by (apply Z.div_lt; lia).
      nia. }
  unfold is_LONG, INT_MIN, INT_MAX in *.
  rewrite (to_LONG_id (v - lo)) by (unfold is_LONG, INT_MIN, INT_MAX; lia).
  rewrite (to_LONG_id (pmax - pmin)) by (unfold is_LONG, INT_MIN, INT_MAX; lia).
  rewrite (to_LONG_id (hi - lo)) by (unfold is_LONG, INT_MIN, INT_MAX; lia).
  rewrite MulDiv_nonneg by (unfold INT_MAX; lia).
  split; [|lia]. apply to_LONG_id. unfold is_LONG, INT_MIN, INT_MAX. lia.
Qed.

Lemma clamp_or_interpolate_between v lo hi pmin pmax :
  hi - lo <= INT_MAX ->
  is_LONG pmin -> is_LONG pmax -> pmin <= pmax -> pmax - pmin <= INT_MAX ->
  pmin <= clamp_or_interpolate v lo hi pmin pmax <= pmax.
Proof.
  intros Hspan Hmin Hmax Hle Hphy. unfold clamp_or_interpolate.
  destruct (Z.leb_spec v lo); [lia|].
  destruct (Z.leb_spec hi v); [lia|].
  destruct (interpolation_between v lo hi pmin pmax) as [-> Hb]; auto.
Qed.

Lemma clamp_or_interpolate_mono v1 v2 lo hi pmin pmax :
  hi - lo <= INT_MAX ->
  is_LONG pmin -> is_LONG pmax -> pmin <= pmax -> pmax - pmin <= INT_MAX ->
  v1 <= v2 ->
  clamp_or_interpolate v1 lo hi pmin pmax <= clamp_or_interpolate v2 lo hi pmin pmax.
Proof.
  intros Hspan Hmin Hmax Hle Hphy Hv.
  pose proof (clamp_or_interpolate_between v1 lo hi pmin pmax Hspan Hmin Hmax Hle Hphy) as B1.
  pose proof (clamp_or_interpolate_between v2 lo hi pmin pmax Hspan Hmin Hmax Hle Hphy) as B2.
  unfold clamp_or_interpolate in *.
  destruct (Z.leb_spec v1 lo); [lia|].
  destruct (Z.leb_spec v2 lo); [lia|].
  destruct (Z.leb_spec hi v2); [lia|].
  destruct (Z.leb_spec hi v1); [lia|].
  destruct (interpolation_between v1 lo hi pmin pmax) as [-> _]; auto.
  destruct (interpolation_between v2 lo hi pmin pmax) as [-> _]; auto.
  apply Z.add_le_mono_l, Z.div_le_mono; [lia|]. nia.
Qed.

(** What [calibration_fits] gives the scaler: both centers inside their
    ranges and the four edges between the bound of their half and 0. *)
Lemma calibration_fits_edges p :
  calibration_fits p ->
  (range_min p <= phy_center p <= range_max p
   /\ phy_center p - range_min p <= INT_MAX /\ range_max p - phy_center p <= INT_MAX)
  /\ (logical_min p <= log_center p <= logical_max p
      /\ log_center p - logical_min p <= INT_MAX
      /\ logical_max p - log_center p <= INT_MAX)
  /\ (- INT_MAX <= saturation_edge_neg p <= 0 /\ - INT_MAX <= deadzone_edge_neg p <= 0)
  /\ (0 <= deadzone_edge_pos p <= INT_MAX /\ 0 <= saturation_edge_pos p <= INT_MAX).
Proof.
  intros ((Hl1 & Hl2 & Hl3 & Hl4) & (Hr1 & Hr2 & Hr3 & Hr4) & Hd & Hs).
  pose proof (center_between (range_min p) (range_max p) Hr1 Hr2 Hr3 Hr4) as Hp.
  pose proof (center_between (logical_min p) (logical_max p) Hl1 Hl2 Hl3 Hl4) as Hc.
  fold (phy_center p) in Hp. fold (log_center p) in Hc.
  split; [exact Hp|]. split; [exact Hc|].
  destruct Hc as (Hc1 & Hc2 & Hc3).
  unfold saturation_edge_neg, deadzone_edge_neg, deadzone_edge_pos, saturation_edge_pos.
  rewrite (to_LONG_id (logical_min p - log_center p))
    by (unfold is_LONG, INT_MIN, INT_MAX in *; lia).
  rewrite (to_LONG_id (logical_max p - log_center p))
    by (unfold is_LONG, INT_MIN, INT_MAX in *; lia).
  pose proof (MulDiv_10000_lower (logical_min p - log_center p) (saturation p)
                ltac:(lia) Hs).
  pose proof (MulDiv_10000_lower (logical_min p - log_center p) (deadzone p)
                ltac:(lia) Hd).
  pose proof (MulDiv_10000_upper (logical_max p - log_center p) (saturation p)
                ltac:(lia) Hs).
  pose proof (MulDiv_10000_upper (logical_max p - log_center p) (deadzone p)
                ltac:(lia) Hd).
  lia.
Qed.

Lemma scale_axis_value_half_bounds p v :
  calibration_fits p ->
  (shifted v p <= 0 -> range_min p <= scale_axis_value v p <= phy_center p)
  /\ (0 < shifted v p -> phy_center p <= scale_axis_value v p <= range_max p).
Proof.
  intros Hfit.
  destruct (calibration_fits_edges p Hfit)
    as ((Hp1 & Hp2 & Hp3) & _ & (Hsn & Hdn) & (Hdp & Hsp)).
  destruct Hfit as (_ & (Hr1 & Hr2 & Hr3 & _) & _).
  rewrite scale_axis_value_halves. unfold is_LONG, INT_MIN, INT_MAX in *.
  split; intros Hs.
  - destruct (Z.leb_spec (shifted v p) 0); [|lia].
    apply clamp_or_interpolate_between; unfold is_LONG, INT_MIN, INT_MAX; lia.
  - destruct (Z.leb_spec (shifted v p) 0); [lia|].
    apply clamp_or_interpolate_between; unfold is_LONG, INT_MIN, INT_MAX; lia.
Qed.

(** X1: on a calibration that fits, scale_axis_value never leaves the physical
    range, whatever the raw value: every result lies between range_min and
    range_max, on the lower half of the logical range between range_min and
    the physical center, on the upper half between the physical center and
    range_max. *)
Theorem scale_axis_value_within_range p v :
  calibration_fits p ->
  range_min p <= scale_axis_value v p <= range_max p
  /\ (shifted v p <= 0 -> scale_axis_value v p <= phy_center p)
  /\ (0 < shifted v p -> phy_center p <= scale_axis_value v p).
Proof.
  intros Hfit.
  destruct (scale_axis_value_half_bounds p v Hfit) as [Hn Hp].
  destruct (calibration_fits_edges p Hfit) as ((Hp1 & _) & _).
  destruct (Z.le_gt_cases (shifted v p) 0) as [Hs|Hs].
  - specialize (Hn Hs). repeat split; intros; lia.
  - specialize (Hp ltac:(lia)). repeat split; intros; lia.
Qed.

Lemma scale_axis_value_within_range_witness :
  range_min calibrated_axis <= scale_axis_value 1234 calibrated_axis
  <= range_max calibrated_axis.
Proof.
  apply (scale_axis_value_within_range calibrated_axis 1234).
  vm_compute. repeat split; discriminate.
Defined.

(** X6: on a calibration that fits, scale_axis_value is monotonic non-decreasing
    over the raw values between logical_min and logical_max, whatever the
    deadzone and the saturation (also when the rounded edges of a half
    meet or cross). *)
Theorem scale_axis_value_monotone p v1 v2 :
  calibration_fits p ->
  logical_min p <= v1 -> v1 <= v2 -> v2 <= logical_max p ->
  scale_axis_value v1 p <= scale_axis_value v2 p.
Proof.
  intros Hfit Hlo Hle Hhi.
  destruct (scale_axis_value_half_bounds p v1 Hfit) as [Hn1 Hp1].
  destruct (scale_axis_value_half_bounds p v2 Hfit) as [Hn2 Hp2].
  destruct (calibration_fits_edges p Hfit)
    as ((Hc1 & Hc2 & Hc3) & (Hlc & Hlc2 & Hlc3) & (Hsn & Hdn) & (Hdp & Hsp)).
  pose proof Hfit as ((Hl1 & Hl2 & Hl3 & _) & (Hr1 & Hr2 & Hr3 & _) & _).
  assert (Hs1 : shifted v1 p = v1 - log_center p)
    by (apply to_LONG_id; unfold is_LONG, INT_MIN, INT_MAX in *; lia).
  assert (Hs2 : shifted v2 p = v2 - log_center p)
    by (apply to_LONG_id; unfold is_LONG, INT_MIN, INT_MAX in *; lia).
  destruct (Z.le_gt_cases (shifted v1 p) 0) as [H1|H1];
    destruct (Z.le_gt_cases (shifted v2 p) 0) as [H2|H2].
  - rewrite !scale_axis_value_halves.
    destruct (Z.leb_spec (shifted v1 p) 0); [|lia].
    destruct (Z.leb_spec (shifted v2 p) 0); [|lia].
    apply clamp_or_interpolate_mono; unfold is_LONG, INT_MIN, INT_MAX in *; lia.
  - specialize (Hn1 H1). specialize (Hp2 ltac:(lia)). lia.
  - lia.
  - rewrite !scale_axis_value_halves.
    destruct (Z.leb_spec (shifted v1 p) 0); [lia|].
    destruct (Z.leb_spec (shifted v2 p) 0); [lia|].
    apply clamp_or_interpolate_mono; unfold is_LONG, INT_MIN, INT_MAX in *; lia.
Qed.

Lemma scale_axis_value_monotone_witness :
  scale_axis_value (-20000) calibrated_axis <= scale_axis_value 1234 calibrated_axis.
Proof.
  apply (scale_axis_value_monotone calibrated_axis (-20000) 1234);
    vm_compute; repeat split; discriminate.
Defined.

End ScalerRange.

(** ** Object enumeration *)

Lemma device_object_instances_types input_type :
  dwType <$> device_object_instances input_type = get_device_objects input_type.
Proof.
  unfold device_object_instances, get_device_objects.
  destruct (nonzero (Z.land input_type FLAG_DINPUT_MAPPER_STANDARD)); [reflexivity|].
  destruct (nonzero (Z.land input_type FLAG_DINPUT_MAPPER_XINPUT)); reflexivity.
Qed.










(** ** Events and snapshot *)

Section Agreement.

Variable dev : gamepad.
Variable new : gamepad_state.
Variables time seq : Z.

Lemma axis_block_written (h : DIJOYSTATE -> Z) raw stored_raw store instance set_axis c :
  (forall v s, h (set_axis v s) = v) ->
  raw <> stored_raw (sample c) ->
  h (joystate (axis_block dev raw stored_raw store instance set_axis time seq c))
  = ev_data (axis_event dev raw instance time seq).
Proof.
  intros Hh Hne. unfold axis_block, changed. rewrite (neqb_true _ _ Hne).
  cbn [joystate set_notify queue_event on_joystate on_sample ev_data axis_event].
  apply Hh.
Qed.

Lemma handle_standard_axes c :
  (thumb_lx new <> thumb_lx (sample c) ->
   lX (joystate (handle_standard dev new time seq c))
   = ev_data (axis_event dev (thumb_lx new) 0 time seq))
  /\ (thumb_ly new <> thumb_ly (sample c) ->
      lY (joystate (handle_standard dev new time seq c))
      = ev_data (axis_event dev (thumb_ly new) 1 time seq))
  /\ (thumb_rx new <> thumb_rx (sample c) ->
      lZ (joystate (handle_standard dev new time seq c))
      = ev_data (axis_event dev (thumb_rx new) 2 time seq))
  /\ (thumb_ry new <> thumb_ry (sample c) ->
      lRz (joystate (handle_standard dev new time seq c))
      = ev_data (axis_event dev (thumb_ry new) 3 time seq)).
Proof.
  unfold handle_standard. cbv zeta.
  repeat split; intros Hne; peel_joystate;
    (apply axis_block_written; [intros; reflexivity | peel_sample; exact Hne]).
Qed.

Lemma handle_xinput_axes c :
  (thumb_lx new <> thumb_lx (sample c) ->
   lX (joystate (handle_xinput dev new time seq c))
   = ev_data (axis_event dev (thumb_lx new) 0 time seq))
  /\ (thumb_ly new <> thumb_ly (sample c) ->
      lY (joystate (handle_xinput dev new time seq c))
      = ev_data (axis_event dev (thumb_ly new) 1 time seq))
  /\ (thumb_rx new <> thumb_rx (sample c) ->
      lRx (joystate (handle_xinput dev new time seq c))
      = ev_data (axis_event dev (thumb_rx new) 3 time seq))
  /\ (thumb_ry new <> thumb_ry (sample c) ->
      lRy (joystate (handle_xinput dev new time seq c))
      = ev_data (axis_event dev (thumb_ry new) 4 time seq)).
Proof.
  unfold handle_xinput. cbv zeta.
  repeat split; intros Hne; peel_joystate;
    (apply axis_block_written; [intros; reflexivity | peel_sample; exact Hne]).
Qed.

Lemma handle_xinput_rgbButtons c :
  buttons new <> buttons (sample c) ->
  rgbButtons (joystate (handle_xinput dev new time seq c))
  = rgbButtons
      (joystate (xinput_button_loop dev (buttons new) time seq
                   {| sample := sample c; joystate := joystate c;
                      notify := notify c; queued := queued c |})).
Proof.
  intros Hb. unfold handle_xinput. cbv zeta. peel_joystate.
  unfold buttons_block at 1. rewrite changed_true by (peel_sample; apply neqb_true, Hb).
  unfold xinput_button_loop, button_step. rewrite seqZ_0_10. cbn.
  peel_joystate. reflexivity.
Qed.

Lemma xinput_button_loop_slots b c i :
  length (rgbButtons (joystate c)) = 32%nat ->
  0 <= i < 10 ->
  rgbButtons (joystate (xinput_button_loop dev b time seq c)) !! Z.to_nat i
  = Some (button_value b i).
Proof.
  intros Hlen Hi.
  unfold xinput_button_loop, button_step. rewrite seqZ_0_10. cbn.
  assert (Hcases : i = 0 \/ i = 1 \/ i = 2 \/ i = 3 \/ i = 4 \/ i = 5 \/ i = 6
                   \/ i = 7 \/ i = 8 \/ i = 9) by lia.
  repeat destruct Hcases as [-> | Hcases]; try subst i.
  all: repeat first
         [ rewrite list_lookup_insert_eq by (rewrite ?length_insert; lia); reflexivity
         | rewrite list_lookup_insert_ne by (vm_compute; lia || discriminate) ].
Qed.

End Agreement.

Lemma field_at_button j s :
  0 <= j < 32 -> field_at (dwOfs (button_instance j)) s = rgbButtons s !! Z.to_nat j.
Proof.
  intros Hj. unfold field_at, button_instance, dwOfs, DIJOFS_BUTTON, DIJOFS_X, DIJOFS_Y,
    DIJOFS_Z, DIJOFS_RX, DIJOFS_RY, DIJOFS_RZ.
  repeat match goal with
         | |- context [?a =? ?b] => destruct (Z.eqb_spec a b); [lia|]
         end.
  destruct (Z.leb_spec 32 (48 + j)); [|lia].
  destruct (Z.ltb_spec (48 + j) 48); [lia|].
  destruct (Z.leb_spec 48 (48 + j)); [|lia].
  destruct (Z.ltb_spec (48 + j) 80); [|lia].
  cbn [andb]. replace (48 + j - 48) with j by lia. reflexivity.
Qed.

Ltac one_event He :=
  lazymatch type of He with
  | _ ∈ (if ?a !=? ?b then _ else _) =>
      let Hne := fresh "Hne" in
      destruct (neqb_spec a b) as [Hne|Hne];
      [|apply elem_of_nil in He; contradiction]
  | _ ∈ (if ?t then _ else _) =>
      let Hne := fresh "Hne" in
      destruct t eqn:Hne; [|apply elem_of_nil in He; contradiction]
  end;
  repeat (apply elem_of_cons in He; destruct He as [->|He]);
  try (apply elem_of_nil in He; contradiction).

Ltac object_at n := apply (list_elem_of_lookup_2 _ n); reflexivity.

(** X17: what a call reports is what the snapshot holds afterwards, at the place
    the device enumerates for it: every event of a call names an object of
    the active variant's list, and after the call the snapshot holds, at that
    object's data offset, the value the event carries.  (The snapshot has its
    4 hat and 32 button entries.) *)
Theorem events_agree_with_snapshot g dev new time e :
  length (rgdwPOV (device_state dev)) = 4%nat ->
  length (rgbButtons (device_state dev)) = 32%nat ->
  e ∈ snd (gamepad_handle_input g dev new time) ->
  exists o,
    o ∈ device_object_instances (input_type g)
    /\ ev_index e = object_index dev (dwType o)
    /\ field_at (dwOfs o) (device_state (fst (gamepad_handle_input g dev new time)))
       = Some (ev_data e).
Proof.
  intros Hpov Hbtn He.
  unfold gamepad_handle_input in *. cbn [fst snd device_state] in *.
  rewrite run_input_queued in He. unfold device_object_instances, run_input.
  change (nonzero (Z.land (input_type g) FLAG_DINPUT_MAPPER_STANDARD))
    with (mapper_standard g).
  change (nonzero (Z.land (input_type g) FLAG_DINPUT_MAPPER_XINPUT))
    with (mapper_xinput g).
  set (c0 := {| sample := state dev; joystate := device_state dev;
                notify := false; queued := [] |}).
  destruct (mapper_standard g); [|destruct (mapper_xinput g)].
  - destruct (handle_standard_axes dev new time (evsequence dev) c0)
      as (HX & HY & HZ & HRz).
    pose proof (handle_standard_hat dev new time (evsequence dev) c0) as HP.
    pose proof (handle_standard_rgbButtons dev new time (evsequence dev) c0) as HB.
    set (J := joystate (handle_standard dev new time (evsequence dev) c0)) in *.
    cbn [sample joystate c0] in HX, HY, HZ, HRz, HP, HB.
    unfold standard_events, stick_events, hat_events, standard_button_events in He.
    rewrite seqZ_0_12 in *. cbn [fmap list_fmap app] in He |- *.
    rewrite !elem_of_app in He.
    destruct He as [[He|[He|[He|He]]]|[He|He]].
    + one_event He. exists (axis_instance GUID_XAxis DIJOFS_X 0 HID_USAGE_GENERIC_X).
      split; [object_at 0%nat|]. split; [reflexivity|].
      rewrite <- HX by assumption. reflexivity.
    + one_event He. exists (axis_instance GUID_YAxis DIJOFS_Y 1 HID_USAGE_GENERIC_Y).
      split; [object_at 1%nat|]. split; [reflexivity|].
      rewrite <- HY by assumption. reflexivity.
    + one_event He. exists (axis_instance GUID_ZAxis DIJOFS_Z 2 HID_USAGE_GENERIC_Z).
      split; [object_at 2%nat|]. split; [reflexivity|].
      rewrite <- HZ by assumption. reflexivity.
    + one_event He. exists (axis_instance GUID_RzAxis DIJOFS_RZ 3 HID_USAGE_GENERIC_RZ).
      split; [object_at 3%nat|]. split; [reflexivity|].
      rewrite <- HRz by assumption. reflexivity.
    + one_event He;
      match goal with
           | |- context [button_event _ _ _ _ ?i ?j] =>
               exists (button_instance j);
               split; [object_at (Z.to_nat (4 + j))|]; split; [reflexivity|];
               rewrite field_at_button by (vm_compute; split; [discriminate | reflexivity]);
               rewrite HB by assumption;
               apply (standard_button_loop_slots dev (buttons new) time (evsequence dev)
                        _ i); [exact Hbtn | lia]
           end.
    + one_event He. exists pov_instance.
      split; [object_at 16%nat|]. split; [reflexivity|].
      change (field_at (dwOfs pov_instance) J) with (rgdwPOV J !! 0%nat).
      rewrite HP by assumption. apply list_lookup_insert_eq. lia.
  - destruct (handle_xinput_axes dev new time (evsequence dev) c0)
      as (HX & HY & HRx & HRy).
    pose proof (handle_xinput_hat dev new time (evsequence dev) c0) as HP.
    pose proof (handle_xinput_rgbButtons dev new time (evsequence dev) c0) as HB.
    pose proof (handle_xinput_lZ dev new time (evsequence dev) c0) as HZ.
    set (J := joystate (handle_xinput dev new time (evsequence dev) c0)) in *.
    cbn [sample joystate c0] in HX, HY, HRx, HRy, HP, HB, HZ.
    unfold xinput_events, stick_events, hat_events, xinput_button_events in He.
    rewrite seqZ_0_10 in *. cbn [fmap list_fmap app] in He |- *.
    rewrite !elem_of_app in He.
    destruct He as [[He|[He|[He|He]]]|[He|[He|He]]].
    + one_event He. exists (axis_instance GUID_XAxis DIJOFS_X 0 HID_USAGE_GENERIC_X).
      split; [object_at 0%nat|]. split; [reflexivity|].
      rewrite <- HX by assumption. reflexivity.
    + one_event He. exists (axis_instance GUID_YAxis DIJOFS_Y 1 HID_USAGE_GENERIC_Y).
      split; [object_at 1%nat|]. split; [reflexivity|].
      rewrite <- HY by assumption. reflexivity.
    + one_event He. exists (axis_instance GUID_RxAxis DIJOFS_RX 3 HID_USAGE_GENERIC_RX).
      split; [object_at 3%nat|]. split; [reflexivity|].
      rewrite <- HRx by assumption. reflexivity.
    + one_event He. exists (axis_instance GUID_RyAxis DIJOFS_RY 4 HID_USAGE_GENERIC_RY).
      split; [object_at 4%nat|]. split; [reflexivity|].
      rewrite <- HRy by assumption. reflexivity.
    + one_event He. exists (axis_instance GUID_ZAxis DIJOFS_Z 2 HID_USAGE_GENERIC_Z).
      split; [object_at 2%nat|]. split; [reflexivity|].
      change (field_at (dwOfs (axis_instance GUID_ZAxis DIJOFS_Z 2 HID_USAGE_GENERIC_Z)) J)
        with (Some (lZ J)).
      rewrite HZ by reflexivity.
      unfold trigger_event, merged_trigger. cbn [ev_data axis_event]. reflexivity.
    + one_event He;
      match goal with
           | |- context [button_event _ _ _ _ ?i ?j] =>
               exists (button_instance j);
               split; [object_at (Z.to_nat (5 + j))|]; split; [reflexivity|];
               rewrite field_at_button by (vm_compute; split; [discriminate | reflexivity]);
               rewrite HB by assumption;
               apply (xinput_button_loop_slots dev time (evsequence dev) (buttons new)
                        _ i); [exact Hbtn | lia]
           end.
    + one_event He. exists pov_instance.
      split; [object_at 15%nat|]. split; [reflexivity|].
      change (field_at (dwOfs pov_instance) J) with (rgdwPOV J !! 0%nat).
      rewrite HP by assumption. apply list_lookup_insert_eq. lia.
  - apply elem_of_nil in He. contradiction.
Qed.

(** *** A truncated answer to the acquire request *)

Lemma one_octet_id_nonzero a b :
  to_LONG (to_uchar 0 + 256 * to_uchar 1 + 65536 * to_uchar a + 16777216 * to_uchar b) <> 0.
Proof.
  unfold to_LONG, to_uchar. change (0 mod 256) with 0. change (1 mod 256) with 1.
  Z.to_euclidean_division_equations. lia.
Qed.

(** X18: get_gamepad_request does not look at the length recvfrom returns.  An
    answer of the single octet 8 to the request of gamepad_acquire is taken
    for a full response: the id is read from octets 1 and 2 of the request
    itself (0 and the notify flag 1) and from octets 3 and 4 of whatever the
    local buffer held, so it is never 0, and the flags are octet 5 of that
    buffer.  The connected id and the mapper flags are overwritten with
    these, whatever they were. *)
Theorem one_octet_answer_overwrites_identity net buffer g :
  length buffer = BUFFER_SIZE ->
  sendto_ok net = true ->
  response net = datagram [REQUEST_CODE_GET_GAMEPAD] ->
  gamepad_acquire net buffer g
  = (DI_OK,
     {| server_sock := server_sock g; winsock_loaded := winsock_loaded g;
        connected_gamepad_id :=
          to_LONG (256 + 65536 * octet buffer 3 + 16777216 * octet buffer 4);
        input_type := char_at buffer 5 |},
     true)
  /\ to_LONG (256 + 65536 * octet buffer 3 + 16777216 * octet buffer 4) <> 0.
Proof.
  intros Hlen Hsend Hresp.
  destruct buffer as [|b0 [|b1 [|b2 [|b3 [|b4 [|b5 rest]]]]]]; try discriminate Hlen.
  split; [|apply (one_octet_id_nonzero b3 b4)].
  unfold gamepad_acquire, get_gamepad_request. rewrite Hsend, Hresp. cbn [negb].
  unfold recvfrom, GET_GAMEPAD_request.
  cbn [length Nat.leb BUFFER_SIZE app drop insert list_insert].
  unfold char_at, int_at, octet. cbn [lookup list_lookup default Nat.add]. unfold id.
  change (to_char (to_uchar REQUEST_CODE_GET_GAMEPAD) !=? REQUEST_CODE_GET_GAMEPAD)
    with false. cbv iota.
  pose proof (one_octet_id_nonzero b3 b4) as Hnz.
  destruct (Z.eqb_spec
              (to_LONG (to_uchar 0 + 256 * to_uchar 1 + 65536 * to_uchar b3
                        + 16777216 * to_uchar b4)) 0) as [E|_]; [contradiction|].
  cbn [input_type set_input_type].
  destruct (negb (nonzero (Z.land (to_char (to_uchar b5)) FLAG_INPUT_TYPE_DINPUT)));
    destruct g; reflexivity.
Qed.

Lemma one_octet_answer_overwrites_identity_witness :
  gamepad_acquire (answering (datagram [REQUEST_CODE_GET_GAMEPAD])) stale_buffer
    standard_globals
  = (DI_OK,
     {| server_sock := true; winsock_loaded := true; connected_gamepad_id := 256;
        input_type := 0 |},
     true).
Proof.
  apply (one_octet_answer_overwrites_identity
           (answering (datagram [REQUEST_CODE_GET_GAMEPAD])) stale_buffer
           standard_globals);
    reflexivity.
Defined.

Lemma events_agree_with_snapshot_witness :
  exists o,
    o ∈ device_object_instances (input_type standard_globals)
    /\ ev_index {| ev_index := 5; ev_data := 128; ev_time := 0; ev_seq := 1 |}
       = object_index (fresh_device (input_type standard_globals)) (dwType o)
    /\ field_at (dwOfs o)
         (device_state
            (fst (gamepad_handle_input standard_globals
                    (fresh_device (input_type standard_globals)) press_A 0)))
       = Some (ev_data {| ev_index := 5; ev_data := 128; ev_time := 0; ev_seq := 1 |}).
Proof.
  apply (events_agree_with_snapshot standard_globals
           (fresh_device (input_type standard_globals)) press_A 0
           {| ev_index := 5; ev_data := 128; ev_time := 0; ev_seq := 1 |});
    [reflexivity | reflexivity |].
  apply (list_elem_of_lookup_2 _ 0%nat). vm_compute. reflexivity.
Defined.
